(** * AgileRL: evolvable multi-input encoder and population initialisation

    A shallow embedding of [agilerl/modules/multi_input.py] (the class
    [EvolvableMultiInput]) and of [agilerl/utils/utils.py] (the function
    [initialPopulation]), with the properties of the latent-dimension
    mutations, of the network rebuild, of the weight transplant and of the
    population constructor that the specification states.

    Python integers are unbounded, hence [Z]; dictionaries whose order is
    irrelevant are [gmap]s, ordered dictionaries (observation spaces, the
    [ModuleDict] of feature extractors) are association lists; an object
    that Python mutates in place is a value in a store, addressed by a
    location. *)

From stdpp Require Import gmap strings pretty list fin_maps.

Set Warnings "-register-all".

Local Open Scope Z_scope.
Local Open Scope string_scope.

(** ** Python results *)

(** The exceptions the modelled code raises. *)
Inductive exn :=
  | AssertionError (msg : string)
  | KeyError (key : string)
  | ValueError (msg : string)
  | AttributeError (msg : string)
  | IndexError (msg : string)
  | RuntimeError (msg : string)
  | TypeError (msg : string).

Inductive result (A : Type) :=
  | Ok (a : A)
  | Raise (e : exn).
Arguments Ok {A} a.
Arguments Raise {A} e.

#[global] Instance result_ret : MRet result := λ A a, Ok a.
#[global] Instance result_bind : MBind result := λ A B k r,
  match r with
  | Ok a => k a
  | Raise e => Raise e
  end.

(** [assert cond, msg] *)
Definition assert (cond : bool) (msg : string) : result unit :=
  if cond then Ok () else Raise (AssertionError msg).

(** ** Observation spaces (gymnasium) *)

Inductive space :=
  | Box (shape : list Z)
  | Discrete (n : Z)
  | MultiDiscrete (nvec : list Z)
  | MultiBinary (n : Z)
  | Dict (spaces : list (string * space))
  | Tuple (spaces : list space).

(** ** Python values held in configuration dictionaries *)

Inductive pyval :=
  | PNone
  | PBool (b : bool)
  | PInt (n : Z)
  | PStr (s : string)
  | PInts (l : list Z)
  | PSpace (s : space)
  | PDict (d : gmap string pyval).

Abbreviation config := (gmap string pyval).

(** Truth value of a Python object in a boolean context. *)
Definition truthy (v : pyval) : bool :=
  match v with
  | PNone => false
  | PBool b => b
  | PInt n => negb (n =? 0)%Z
  | PStr s => negb (bool_decide (s = ""))
  | PInts l => negb (bool_decide (l = []))
  | PSpace _ => true
  | PDict d => negb (bool_decide (d = ∅))
  end.

(** [d.get(key, default)] *)
Definition get (d : config) (key : string) (dflt : pyval) : pyval :=
  default dflt (d !! key).

(** ** Ordered dictionaries *)

Section odict.
Context {V : Type}.

Definition keys (d : list (string * V)) : list string := d.*1.

Fixpoint lookup_key (key : string) (d : list (string * V)) : option V :=
  match d with
  | [] => None
  | (k, v) :: d' => if decide (k = key) then Some v else lookup_key key d'
  end.

(** [d[key] = v]: an existing key keeps its position. *)
Fixpoint setitem (key : string) (v : V) (d : list (string * V))
  : list (string * V) :=
  match d with
  | [] => [(key, v)]
  | (k, w) :: d' =>
      if decide (k = key) then (k, v) :: d' else (k, w) :: setitem key v d'
  end.
End odict.

(** ** Tensors and named parameters *)

Section tensors.
Context {T : Type}.

(** A tensor: its shape and its elements in row-major order. *)
Record tensor := Tensor { shape : list nat; data : list T }.

Fixpoint numel (s : list nat) : nat :=
  match s with
  | [] => 1%nat
  | n :: s' => (n * numel s')%nat
  end.

Definition well_formed (t : tensor) : Prop :=
  length (data t) = numel (shape t).

(** All the multi-indices of a shape, in row-major order. *)
Fixpoint indices (s : list nat) : list (list nat) :=
  match s with
  | [] => [[]]
  | n :: s' => i ← seq 0 n; (cons i) <$> indices s'
  end.

(** Position of a multi-index in the row-major data. *)
Fixpoint offset (s idx : list nat) : nat :=
  match s, idx with
  | _ :: s', i :: idx' => (i * numel s' + offset s' idx')%nat
  | _, _ => 0%nat
  end.

Definition item (t : tensor) (idx : list nat) : option T :=
  data t !! offset (shape t) idx.

(** [within idx s]: the index lies inside the extent [s] on every axis. *)
Fixpoint within (idx s : list nat) : bool :=
  match idx, s with
  | [], [] => true
  | i :: idx', n :: s' => bool_decide (i < n)%nat && within idx' s'
  | _, _ => false
  end.

(** Modelled from the spec: [agilerl/modules/base.py] is absent; the spec's
    WeightPreserver gives the rule for one tensor pair: "for each tensor
    axis, copy [min(old_dim, new_dim)] elements; indices in [new] beyond
    [old]'s extent retain the fresh initialization value", and a tensor
    that changed rank is "left at [new]'s fresh value". An index of [new]
    lies in the copied region exactly when it lies within [old]'s shape. *)
Definition copy_overlap (old new : tensor) : tensor :=
  if bool_decide (length (shape old) = length (shape new)) then
    Tensor (shape new)
      (zip_with
         (λ idx x, if within idx (shape old)
                   then default x (item old idx) else x)
         (indices (shape new)) (data new))
  else new.

(** Modelled from the spec: the transplant over named parameters and
    buffers, "matched by hierarchical name": a name of [new] that [old]
    has too receives the overlapping region, a name only in [new] is
    "left at [its] fresh initialization untouched", a name only in [old]
    is "discarded". *)
Definition transplant (old new : gmap string tensor) : gmap string tensor :=
  map_imap
    (λ name tn,
       Some (match old !! name with
             | Some to => copy_overlap to tn
             | None => tn
             end))
    new.

(** A torch module: its architecture and its named parameters. *)
Record nn_module (A : Type) := Module_ { arch : A; state_dict : gmap string tensor }.
Arguments Module_ {A} arch state_dict.
Arguments arch {A} _.
Arguments state_dict {A} _.

(** Modelled from the spec: [EvolvableModule.preserve_parameters(old_net,
    new_net)] of the absent [agilerl/modules/base.py] is the spec's
    [transplant(old, new) -> new']: the new module, with the parameters
    transplanted into it. *)
Definition preserve_parameters {A} (old_net new_net : nn_module A) : nn_module A :=
  Module_ (arch new_net) (transplant (state_dict old_net) (state_dict new_net)).
End tensors.

Arguments tensor T : clear implicits.
Arguments nn_module T A : clear implicits.
Arguments Module_ {T A} arch state_dict.
Arguments arch {T A} _.
Arguments state_dict {T A} _.

(** ** Collaborators of the module that the sources do not contain *)

(** Modelled from the spec: the base class [EvolvableModule] of the absent
    [agilerl/modules/base.py] holds "a seeded random-generator handle",
    drawn from "sequentially and deterministically". [default_rng seed] is
    the handle made from an integer seed; [choice options g] is the value
    [g.choice(options)] returns together with the advanced handle, and the
    value is one of the options. *)
Class Generator (G : Type) := {
  default_rng : Z → G;
  choice : list Z → G → Z * G;
  choice_elem : ∀ options g, options ≠ [] → (choice options g).1 ∈ options
}.

(** The helpers of [agilerl.utils.evolvable_networks] and of gymnasium that
    the module calls and the sources do not contain are parameters. *)
Class Helpers := {
  is_vector_space : space → bool;
  is_image_space : space → bool;
  tuple_to_dict_space : list space → list (string * space);
  flatdim : space → Z
}.

(** [ModuleType] of [agilerl/typing.py]. *)
Inductive ModuleType := CNN | MLP | MULTI_INPUT.

(** A feature extractor is represented by the constructor call that
    [build_feature_extractor] makes for it: the classes [EvolvableCNN] and
    [EvolvableMLP] are not among the sources. *)
Inductive encoder :=
  | NestedMultiInput (observation_space : space) (name : string) (kwargs : config)
  | EvolvableCNN (input_shape : list Z) (name : string) (kwargs : config)
  | Flatten
  | EvolvableMLP (num_inputs : Z) (name : string) (kwargs : config).

(** [nn.Linear(in_features, out_features)] *)
Record Linear := { in_features : Z; out_features : Z }.

(** [nn.LayerNorm(normalized_shape, elementwise_affine=False)] *)
Record LayerNorm := { normalized_shape : Z }.

(** The values torch gives the parameters of a module it has just built. *)
Class Initializer (T : Type) := {
  init_linear : Linear → gmap string (tensor T);
  init_encoders : list (string * encoder) → gmap string (tensor T)
}.

(** [DefaultCnnConfig] and [DefaultMlpConfig], with the fields the module
    spells out. *)
Definition DefaultCnnConfig : config :=
  <["channel_size" := PInts [16; 16]]>
    (<["kernel_size" := PInts [3; 3]]>
       (<["stride_size" := PInts [1; 1]]>
          {["output_activation" := PStr "ReLU"]})).

Definition DefaultMlpConfig : config :=
  <["hidden_size" := PInts [64; 64]]>
    (<["output_activation" := PStr "ReLU"]>
       {["output_layernorm" := PBool true]}).

(** [config or Default]: [None] and the empty dictionary are false. *)
Definition or_default (c : option config) (dflt : config) : config :=
  match c with
  | Some c => if bool_decide (c = ∅) then dflt else c
  | None => dflt
  end.

(** A dictionary-typed entry, read as its annotation types it. *)
Definition as_dict (v : pyval) : config :=
  match v with
  | PDict d => d
  | _ => ∅
  end.

(** [init_dict.pop("name", key)], the name being a string. *)
Definition pop_name (init_dict : config) (key : string) : string * config :=
  (match init_dict !! "name" with
   | Some (PStr s) => s
   | _ => key
   end, delete "name" init_dict).

Definition opt_str (o : option string) : pyval :=
  match o with
  | Some s => PStr s
  | None => PNone
  end.

Definition opt_int (o : option Z) : pyval :=
  match o with
  | Some n => PInt n
  | None => PNone
  end.

(** ** The class [EvolvableMultiInput] *)

Section multi_input.
Context {G : Type} `{!Generator G} `{!Helpers} {T : Type} `{!Initializer T}.

Abbreviation ModuleDict := (nn_module T (list (string * encoder))).

(** The attributes of an instance. *)
Record EvolvableMultiInput := {
  rng : G;
  random_seed : option Z;
  device : string;
  is_tuple_space : bool;
  observation_space : list (string * space);
  num_outputs : Z;
  cnn_config : config;
  mlp_config : config;
  _init_dicts : config;
  _activation : option string;
  mlp_name : option string;
  vector_space_mlp : bool;
  latent_dim : Z;
  output_activation : option string;
  min_latent_dim : Z;
  max_latent_dim : Z;
  name : string;
  output_layernorm : bool;
  vector_spaces : list (string * space);
  total_vector_dims : Z;
  feature_net : ModuleDict;
  extracted_features_dim : Z;
  final_dense : nn_module T Linear;
  final_layernorm : option LayerNorm;
  output : option string
}.

(** Attribute assignments. *)
Definition set_rng (g : G) (self : EvolvableMultiInput) :=
  {| rng := g; random_seed := random_seed self; device := device self;
     is_tuple_space := is_tuple_space self;
     observation_space := observation_space self;
     num_outputs := num_outputs self; cnn_config := cnn_config self;
     mlp_config := mlp_config self; _init_dicts := _init_dicts self;
     _activation := _activation self; mlp_name := mlp_name self;
     vector_space_mlp := vector_space_mlp self;
     latent_dim := latent_dim self;
     output_activation := output_activation self;
     min_latent_dim := min_latent_dim self;
     max_latent_dim := max_latent_dim self; name := name self;
     output_layernorm := output_layernorm self;
     vector_spaces := vector_spaces self;
     total_vector_dims := total_vector_dims self;
     feature_net := feature_net self;
     extracted_features_dim := extracted_features_dim self;
     final_dense := final_dense self;
     final_layernorm := final_layernorm self; output := output self |}.

Definition set_latent_dim (n : Z) (self : EvolvableMultiInput) :=
  {| rng := rng self; random_seed := random_seed self; device := device self;
     is_tuple_space := is_tuple_space self;
     observation_space := observation_space self;
     num_outputs := num_outputs self; cnn_config := cnn_config self;
     mlp_config := mlp_config self; _init_dicts := _init_dicts self;
     _activation := _activation self; mlp_name := mlp_name self;
     vector_space_mlp := vector_space_mlp self;
     latent_dim := n;
     output_activation := output_activation self;
     min_latent_dim := min_latent_dim self;
     max_latent_dim := max_latent_dim self; name := name self;
     output_layernorm := output_layernorm self;
     vector_spaces := vector_spaces self;
     total_vector_dims := total_vector_dims self;
     feature_net := feature_net self;
     extracted_features_dim := extracted_features_dim self;
     final_dense := final_dense self;
     final_layernorm := final_layernorm self; output := output self |}.


Definition set_mlp_name (n : option string) (self : EvolvableMultiInput) :=
  {| rng := rng self; random_seed := random_seed self; device := device self;
     is_tuple_space := is_tuple_space self;
     observation_space := observation_space self;
     num_outputs := num_outputs self; cnn_config := cnn_config self;
     mlp_config := mlp_config self; _init_dicts := _init_dicts self;
     _activation := _activation self; mlp_name := n;
     vector_space_mlp := vector_space_mlp self;
     latent_dim := latent_dim self;
     output_activation := output_activation self;
     min_latent_dim := min_latent_dim self;
     max_latent_dim := max_latent_dim self; name := name self;
     output_layernorm := output_layernorm self;
     vector_spaces := vector_spaces self;
     total_vector_dims := total_vector_dims self;
     feature_net := feature_net self;
     extracted_features_dim := extracted_features_dim self;
     final_dense := final_dense self;
     final_layernorm := final_layernorm self; output := output self |}.

Definition set_feature_net (f : ModuleDict) (self : EvolvableMultiInput) :=
  {| rng := rng self; random_seed := random_seed self; device := device self;
     is_tuple_space := is_tuple_space self;
     observation_space := observation_space self;
     num_outputs := num_outputs self; cnn_config := cnn_config self;
     mlp_config := mlp_config self; _init_dicts := _init_dicts self;
     _activation := _activation self; mlp_name := mlp_name self;
     vector_space_mlp := vector_space_mlp self;
     latent_dim := latent_dim self;
     output_activation := output_activation self;
     min_latent_dim := min_latent_dim self;
     max_latent_dim := max_latent_dim self; name := name self;
     output_layernorm := output_layernorm self;
     vector_spaces := vector_spaces self;
     total_vector_dims := total_vector_dims self;
     feature_net := f;
     extracted_features_dim := extracted_features_dim self;
     final_dense := final_dense self;
     final_layernorm := final_layernorm self; output := output self |}.

Definition set_final_dense (d : nn_module T Linear) (self : EvolvableMultiInput) :=
  {| rng := rng self; random_seed := random_seed self; device := device self;
     is_tuple_space := is_tuple_space self;
     observation_space := observation_space self;
     num_outputs := num_outputs self; cnn_config := cnn_config self;
     mlp_config := mlp_config self; _init_dicts := _init_dicts self;
     _activation := _activation self; mlp_name := mlp_name self;
     vector_space_mlp := vector_space_mlp self;
     latent_dim := latent_dim self;
     output_activation := output_activation self;
     min_latent_dim := min_latent_dim self;
     max_latent_dim := max_latent_dim self; name := name self;
     output_layernorm := output_layernorm self;
     vector_spaces := vector_spaces self;
     total_vector_dims := total_vector_dims self;
     feature_net := feature_net self;
     extracted_features_dim := extracted_features_dim self;
     final_dense := d;
     final_layernorm := final_layernorm self; output := output self |}.


(** A method: from the receiver to the returned value and the receiver
    after the call. *)
Definition method (R : Type) : Type :=
  EvolvableMultiInput → R * EvolvableMultiInput.

(** [self.rng.choice(options)] *)
Definition rng_choice (options : list Z) : method Z :=
  λ self, let '(n, g) := choice options (rng self) in (n, set_rng g self).

(** [add_latent_node]: the returned dictionary and the receiver after the
    call. *)
Definition add_latent_node (numb_new_nodes : option Z) : method (gmap string Z) :=
  λ self,
    let '(numb_new_nodes, self) :=
      match numb_new_nodes with
      | None => rng_choice [8; 16; 32] self
      | Some n => (n, self)
      end in
    let self :=
      if bool_decide (latent_dim self + numb_new_nodes < max_latent_dim self)
      then set_latent_dim (latent_dim self + numb_new_nodes) self
      else self in
    ({["numb_new_nodes" := numb_new_nodes]}, self).

(** [remove_latent_node] *)
Definition remove_latent_node (numb_new_nodes : option Z) : method (gmap string Z) :=
  λ self,
    let '(numb_new_nodes, self) :=
      match numb_new_nodes with
      | None => rng_choice [8; 16; 32] self
      | Some n => (n, self)
      end in
    let self :=
      if bool_decide (latent_dim self - numb_new_nodes > min_latent_dim self)
      then set_latent_dim (latent_dim self - numb_new_nodes) self
      else self in
    ({["numb_new_nodes" := numb_new_nodes]}, self).

(** *** Building the feature extractors *)

(** [vector_space_check] *)
Definition vector_space_check (sp : space) : bool :=
  is_vector_space sp ||
  match sp with
  | Box shape => bool_decide (3 < length shape)%nat
  | _ => false
  end.

(** [get_total_flatdim] *)
Definition get_total_flatdim (observation_spaces : list (string * space)) : Z :=
  foldr Z.add 0 (flatdim <$> observation_spaces.*2).

(** [space.shape] *)
Definition space_shape (sp : space) : list Z :=
  match sp with
  | Box shape => shape
  | Discrete _ => []
  | MultiDiscrete nvec => [Z.of_nat (length nvec)]
  | MultiBinary n => [n]
  | Dict _ | Tuple _ => []
  end.

(** [calc_extracted_features_dim] *)
Definition calc_extracted_features_dim (self : EvolvableMultiInput) : Z :=
  foldr Z.add 0
    ((λ _, latent_dim self) <$>
       filter (λ name, name ∉ keys (vector_spaces self))
              (keys (arch (feature_net self)))).

(** Modelled from the spec: the property [init_dict] of the absent base
    class gives a module's "structural descriptor (the hyperparameters
    needed to reconstruct its graph)": the arguments of its constructor.
    [nn.Flatten] is not an evolvable module and has none. *)
Definition encoder_init_dict (e : encoder) : option config :=
  match e with
  | NestedMultiInput sp name kwargs =>
      Some (<["observation_space" := PSpace sp]> (<["name" := PStr name]> kwargs))
  | EvolvableCNN input_shape name kwargs =>
      Some (<["input_shape" := PInts input_shape]> (<["name" := PStr name]> kwargs))
  | Flatten => None
  | EvolvableMLP num_inputs name kwargs =>
      Some (<["num_inputs" := PInt num_inputs]> (<["name" := PStr name]> kwargs))
  end.

(** The property [init_dicts]. [built] tells whether the attribute
    [feature_net] exists, which it does except while [__init__] builds
    the first feature extractors. *)
Definition init_dicts (built : bool) (self : EvolvableMultiInput) : config :=
  if built then
    foldl
      (λ reformatted_dicts '(key, net),
         match encoder_init_dict net with
         | Some init_dict =>
             let init_dict := delete "observation_space" init_dict in
             let init_dict := delete "input_size" init_dict in
             let init_dict := delete "input_shape" init_dict in
             let init_dict := delete "num_inputs" init_dict in
             let init_dict := <["num_outputs" := PInt (latent_dim self)]> init_dict in
             <[key := PDict init_dict]> reformatted_dicts
         | None => reformatted_dicts
         end)
      ∅ (arch (feature_net self))
  else _init_dicts self.

(** Modelled from the spec: [init_dict] of the module itself, the
    arguments of [__init__] with the values the attributes hold. *)
Definition init_dict (built : bool) (self : EvolvableMultiInput) : config :=
  list_to_map
    [("observation_space", PSpace (Dict (observation_space self)));
     ("num_outputs", PInt (num_outputs self));
     ("latent_dim", PInt (latent_dim self));
     ("vector_space_mlp", PBool (vector_space_mlp self));
     ("cnn_config", PDict (cnn_config self));
     ("mlp_config", PDict (mlp_config self));
     ("init_dicts", PDict (init_dicts built self));
     ("output_activation", opt_str (output_activation self));
     ("output_layernorm", PBool (output_layernorm self));
     ("min_latent_dim", PInt (min_latent_dim self));
     ("max_latent_dim", PInt (max_latent_dim self));
     ("device", PStr (device self));
     ("name", PStr (name self));
     ("random_seed", opt_int (random_seed self))].

(** The property [net_config] *)
Definition net_config (built : bool) (self : EvolvableMultiInput) : config :=
  delete "name" (delete "device" (delete "num_outputs"
    (delete "observation_space" (init_dict built self)))).

(** [get_inner_init_dict]. [ModuleType] has no member beside the three
    the dictionary maps, so that the [ValueError] is not reached. *)
Definition get_inner_init_dict (built : bool) (self : EvolvableMultiInput)
    (key : string) (dflt : ModuleType) : config :=
  let finish (init_dict : config) : config :=
    <["device" := PStr (device self)]>
      (<["num_outputs" := PInt (latent_dim self)]> init_dict) in
  match init_dicts built self !! key with
  | Some init_dict => finish (as_dict init_dict)
  | None =>
      let init_dict :=
        match dflt with
        | CNN => cnn_config self
        | MLP => mlp_config self
        | MULTI_INPUT => net_config built self
        end in
      match init_dict !! key with
      | Some (PDict nested_dict) => finish nested_dict
      | _ => finish init_dict
      end
  end.

(** The extractor [build_feature_extractor] makes for one subspace;
    [None] where the loop continues without making one. *)
Definition feature_extractor (built : bool) (self : EvolvableMultiInput)
    (key : string) (sp : space) : option encoder :=
  let low_rank_box :=
    match sp with
    | Box shape => bool_decide (length shape ≤ 1)%nat
    | _ => false
    end in
  let dict_or_tuple :=
    match sp with
    | Dict _ | Tuple _ => true
    | _ => false
    end in
  if low_rank_box then None
  else if dict_or_tuple then
    let '(name, init_dict) :=
      pop_name (get_inner_init_dict built self key MULTI_INPUT) key in
    Some (NestedMultiInput sp name init_dict)
  else if is_image_space sp then
    let '(name, init_dict) :=
      pop_name (get_inner_init_dict built self key CNN) key in
    Some (EvolvableCNN (space_shape sp) name init_dict)
  else Some Flatten.

(** [build_feature_extractor]: the [ModuleDict] it returns; the method
    assigns [self.mlp_name] on the way. *)
Definition build_feature_extractor (built : bool) : method ModuleDict :=
  λ self,
    let feature_net :=
      foldl
        (λ feature_net '(key, sp),
           match feature_extractor built self key sp with
           | Some e => setitem key e feature_net
           | None => feature_net
           end)
        [] (observation_space self) in
    if vector_space_mlp self then
      let '(mlp_name, init_dict) :=
        pop_name (get_inner_init_dict built self "vector_mlp" MLP) "vector_mlp" in
      let self := set_mlp_name (Some mlp_name) self in
      let vector_mlp := EvolvableMLP (total_vector_dims self) mlp_name init_dict in
      let feature_net := setitem mlp_name vector_mlp feature_net in
      (Module_ feature_net (init_encoders feature_net), self)
    else (Module_ feature_net (init_encoders feature_net), self).

(** [nn.Linear(in_features, out_features)], freshly initialised. *)
Definition new_linear (i o : Z) : nn_module T Linear :=
  let l := {| in_features := i; out_features := o |} in
  Module_ l (init_linear l).

(** [recreate_network] *)
Definition recreate_network : method unit :=
  λ self,
    let '(feature_net_, self) := build_feature_extractor true self in
    let self :=
      set_feature_net (preserve_parameters (feature_net self) feature_net_) self in
    let extracted_features_dim_ := calc_extracted_features_dim self in
    let features_dim :=
      extracted_features_dim_
      + total_vector_dims self * (1 - Z.b2z (vector_space_mlp self)) in
    let final_dense_ := new_linear features_dim (num_outputs self) in
    ((), set_final_dense (preserve_parameters (final_dense self) final_dense_) self).

(** *** Activation *)

(** [get_activation] of the absent [agilerl.utils.evolvable_networks]
    returns the activation layer of a name; the layer is represented by
    the name it is made from. *)
Definition get_activation (activation : option string) : option string :=
  activation.





(** *** Construction *)

(** The arguments of [__init__]. *)
Record init_args := {
  arg_observation_space : space;
  arg_num_outputs : Z;
  arg_latent_dim : Z;
  arg_vector_space_mlp : bool;
  arg_cnn_config : option config;
  arg_mlp_config : option config;
  arg_init_dicts : option config;
  arg_output_activation : option string;
  arg_output_layernorm : bool;
  arg_min_latent_dim : Z;
  arg_max_latent_dim : Z;
  arg_device : string;
  arg_name : string;
  arg_random_seed : option Z
}.

(** The arguments with the defaults of the signature. *)
Definition default_args (observation_space : space) (num_outputs : Z) : init_args :=
  {| arg_observation_space := observation_space;
     arg_num_outputs := num_outputs;
     arg_latent_dim := 32;
     arg_vector_space_mlp := false;
     arg_cnn_config := None;
     arg_mlp_config := None;
     arg_init_dicts := None;
     arg_output_activation := None;
     arg_output_layernorm := false;
     arg_min_latent_dim := 8;
     arg_max_latent_dim := 128;
     arg_device := "cpu";
     arg_name := "multi_input";
     arg_random_seed := None |}.

(** Modelled from the spec: [EvolvableModule.__init__(device,
    random_seed)] of the absent base class makes the "seeded
    random-generator handle". With an integer seed the handle is the one
    of the seed. Without a seed nothing the constructor receives
    determines the handle: it is [unseeded], what the environment
    provides. *)
Definition make_rng (random_seed : option Z) (unseeded : G) : G :=
  match random_seed with
  | Some seed => default_rng seed
  | None => unseeded
  end.

(** [_modify_mlp_config] *)
Definition _modify_mlp_config (mlp_config : config) : config :=
  let c := <["output_vanish" := PBool false]> mlp_config in
  let c := <["output_layernorm" := get c "layer_norm" (PBool true)]> c in
  <["output_activation" := get c "activation" (PStr "ReLU")]> c.

(** [__init__]. Attributes that are assigned later in the body hold a
    placeholder until then; none is read before its assignment. *)
Definition __init__ (a : init_args) (unseeded : G) : result EvolvableMultiInput :=
  _ ← assert (bool_decide (arg_num_outputs a > 0))
        "Number of outputs must be greater than 0.";
  _ ← assert (bool_decide (arg_latent_dim a > 0))
        "Latent dimension must be greater than 0.";
  _ ← assert (match arg_observation_space a with
              | Dict _ | Tuple _ => true
              | _ => false
              end)
        "Observation space must be a Dict or Tuple space.";
  _ ← assert (bool_decide (arg_latent_dim a <= arg_max_latent_dim a))
        "Latent dimension must be less than or equal to max latent dimension.";
  _ ← assert (bool_decide (arg_latent_dim a >= arg_min_latent_dim a))
        "Latent dimension must be greater than or equal to min latent dimension.";
  let '(observation_space_, is_tuple) :=
    match arg_observation_space a with
    | Tuple spaces => (tuple_to_dict_space spaces, true)
    | Dict spaces => (spaces, false)
    | _ => ([], false)
    end in
  let mlp_config_ := or_default (arg_mlp_config a) DefaultMlpConfig in
  let output_layernorm_ :=
    arg_output_layernorm a
    || (arg_vector_space_mlp a && truthy (get mlp_config_ "layer_norm" (PBool true))) in
  let mlp_config_ :=
    if arg_vector_space_mlp a then _modify_mlp_config mlp_config_
    else mlp_config_ in
  let vector_spaces_ :=
    filter (λ kv, vector_space_check kv.2) observation_space_ in
  let self :=
    {| rng := make_rng (arg_random_seed a) unseeded;
       random_seed := arg_random_seed a;
       device := arg_device a;
       is_tuple_space := is_tuple;
       observation_space := observation_space_;
       num_outputs := arg_num_outputs a;
       cnn_config := or_default (arg_cnn_config a) DefaultCnnConfig;
       mlp_config := mlp_config_;
       _init_dicts := default ∅ (arg_init_dicts a);
       _activation := None;
       mlp_name := None;
       vector_space_mlp := arg_vector_space_mlp a;
       latent_dim := arg_latent_dim a;
       output_activation := arg_output_activation a;
       min_latent_dim := arg_min_latent_dim a;
       max_latent_dim := arg_max_latent_dim a;
       name := arg_name a;
       output_layernorm := output_layernorm_;
       vector_spaces := vector_spaces_;
       total_vector_dims := get_total_flatdim vector_spaces_;
       feature_net := Module_ [] ∅;
       extracted_features_dim := 0;
       final_dense := Module_ {| in_features := 0; out_features := 0 |} ∅;
       final_layernorm := None;
       output := None |} in
  let '(feature_net_, self) := build_feature_extractor false self in
  let self := set_feature_net feature_net_ self in
  let extracted := calc_extracted_features_dim self in
  let features_dim :=
    extracted + total_vector_dims self * (1 - Z.b2z (vector_space_mlp self)) in
  Ok {| rng := rng self; random_seed := random_seed self; device := device self;
        is_tuple_space := is_tuple_space self;
        observation_space := observation_space self;
        num_outputs := num_outputs self; cnn_config := cnn_config self;
        mlp_config := mlp_config self; _init_dicts := _init_dicts self;
        _activation := _activation self; mlp_name := mlp_name self;
        vector_space_mlp := vector_space_mlp self;
        latent_dim := latent_dim self;
        output_activation := output_activation self;
        min_latent_dim := min_latent_dim self;
        max_latent_dim := max_latent_dim self; name := name self;
        output_layernorm := output_layernorm self;
        vector_spaces := vector_spaces self;
        total_vector_dims := total_vector_dims self;
        feature_net := feature_net self;
        extracted_features_dim := extracted;
        final_dense := new_linear features_dim (num_outputs self);
        final_layernorm :=
          if output_layernorm self
          then Some {| normalized_shape := num_outputs self |} else None;
        output := get_activation (output_activation self) |}.

(** *** Objects in a store *)

(** Python passes a module by reference: the instances live in a store
    and a method call updates the receiver where it is. *)
Abbreviation store := (gmap positive EvolvableMultiInput).

(** [obj.method(...)] for the object at location [self]: the returned
    value and the store after the call; [None] when nothing is there. *)
Definition call {R} (m : method R) (self : positive) (h : store)
  : option (R * store) :=
  obj ← h !! self;
  let '(r, obj') := m obj in
  Some (r, <[self := obj']> h).

(** *** Sequences of latent mutations *)

Inductive mutation :=
  | AddLatentNode (numb_new_nodes : option Z)
  | RemoveLatentNode (numb_new_nodes : option Z).

Definition requested (mu : mutation) : option Z :=
  match mu with
  | AddLatentNode n | RemoveLatentNode n => n
  end.

Definition mutate (mu : mutation) : method (gmap string Z) :=
  match mu with
  | AddLatentNode n => add_latent_node n
  | RemoveLatentNode n => remove_latent_node n
  end.

(** The mutations one after the other: the dictionaries they return and
    the module after the last. *)
Fixpoint mutate_all (mus : list mutation) : method (list (gmap string Z)) :=
  λ self,
    match mus with
    | [] => ([], self)
    | mu :: mus' =>
        let '(d, self) := mutate mu self in
        let '(ds, self) := mutate_all mus' self in
        (d :: ds, self)
    end.

(** The same, each mutation followed by [recreate_network]. *)
Fixpoint mutate_recreate_all (mus : list mutation) : method (list (gmap string Z)) :=
  λ self,
    match mus with
    | [] => ([], self)
    | mu :: mus' =>
        let '(d, self) := mutate mu self in
        let '(_, self) := recreate_network self in
        let '(ds, self) := mutate_recreate_all mus' self in
        (d :: ds, self)
    end.
End multi_input.

(** ** [initialPopulation] of [agilerl/utils/utils.py] *)

Section population.
(** The Python objects the function hands on without looking into them:
    dimensions, configurations, hyperparameter values, the accelerator. *)
Context {V : Type}.

(** An agent is represented by the constructor call that makes it: the
    algorithm classes are not among the sources. *)
Inductive agent :=
  | DQN (state_dim action_dim one_hot : V) (index : Z)
        (net_config batch_size lr learn_step gamma tau double device accelerator : V)
  | DDPG (state_dim action_dim one_hot : V) (index : Z)
         (net_config batch_size lr learn_step gamma tau policy_freq device accelerator : V)
  | CQN (state_dim action_dim one_hot : V) (index : Z)
        (net_config batch_size lr learn_step gamma tau double device accelerator : V)
  | TD3 (state_dim action_dim one_hot max_action : V) (index : Z)
        (net_config batch_size lr learn_step gamma tau policy_freq device accelerator : V)
  | MADDPG (state_dims action_dims one_hot n_agents agent_ids : V) (index : Z)
           (max_action min_action net_config batch_size lr learn_step gamma tau
            discrete_actions device accelerator : V)
  | MATD3 (state_dims action_dims one_hot n_agents agent_ids : V) (index : Z)
          (max_action min_action net_config batch_size lr policy_freq learn_step
           gamma tau discrete_actions device accelerator : V).

(** The keyword [index] an agent was constructed with. *)
Definition agent_index (a : agent) : Z :=
  match a with
  | DQN _ _ _ index _ _ _ _ _ _ _ _ _ => index
  | DDPG _ _ _ index _ _ _ _ _ _ _ _ _ => index
  | CQN _ _ _ index _ _ _ _ _ _ _ _ _ => index
  | TD3 _ _ _ _ index _ _ _ _ _ _ _ _ _ => index
  | MADDPG _ _ _ _ _ index _ _ _ _ _ _ _ _ _ _ _ => index
  | MATD3 _ _ _ _ _ index _ _ _ _ _ _ _ _ _ _ _ _ => index
  end.

(** [d[key]] *)
Definition getitem (d : gmap string V) (key : string) : result V :=
  match d !! key with
  | Some v => Ok v
  | None => Raise (KeyError key)
  end.

(** [range(n)] *)
Definition range (n : Z) : list Z := Z.of_nat <$> seq 0 (Z.to_nat n).

(** [for x in xs: body], the body acting on the state [s]. *)
Fixpoint for_in {A S} (xs : list A) (body : A → S → result S) (s : S) : result S :=
  match xs with
  | [] => Ok s
  | x :: xs' => s' ← body x s; for_in xs' body s'
  end.

Definition initialPopulation (algo : string)
    (state_dim action_dim one_hot net_config : V) (INIT_HP : gmap string V)
    (population_size : Z) (device accelerator : V) : result (list agent) :=
  let population : list agent := [] in
  if decide (algo = "DQN") then
    for_in (range population_size)
      (λ idx population,
         batch_size ← getitem INIT_HP "BATCH_SIZE";
         lr ← getitem INIT_HP "LR";
         learn_step ← getitem INIT_HP "LEARN_STEP";
         gamma ← getitem INIT_HP "GAMMA";
         tau ← getitem INIT_HP "TAU";
         double ← getitem INIT_HP "DOUBLE";
         let agent := DQN state_dim action_dim one_hot idx net_config
                          batch_size lr learn_step gamma tau double
                          device accelerator in
         Ok (population ++ [agent])%list)
      population
  else if decide (algo = "DDPG") then
    for_in (range population_size)
      (λ idx population,
         batch_size ← getitem INIT_HP "BATCH_SIZE";
         lr ← getitem INIT_HP "LR";
         learn_step ← getitem INIT_HP "LEARN_STEP";
         gamma ← getitem INIT_HP "GAMMA";
         tau ← getitem INIT_HP "TAU";
         policy_freq ← getitem INIT_HP "POLICY_FREQ";
         let agent := DDPG state_dim action_dim one_hot idx net_config
                           batch_size lr learn_step gamma tau policy_freq
                           device accelerator in
         Ok (population ++ [agent])%list)
      population
  else if decide (algo = "CQN") then
    for_in (range population_size)
      (λ idx population,
         batch_size ← getitem INIT_HP "BATCH_SIZE";
         lr ← getitem INIT_HP "LR";
         learn_step ← getitem INIT_HP "LEARN_STEP";
         gamma ← getitem INIT_HP "GAMMA";
         tau ← getitem INIT_HP "TAU";
         double ← getitem INIT_HP "DOUBLE";
         let agent := CQN state_dim action_dim one_hot idx net_config
                          batch_size lr learn_step gamma tau double
                          device accelerator in
         Ok (population ++ [agent])%list)
      population
  else if decide (algo = "TD3") then
    for_in (range population_size)
      (λ idx population,
         max_action ← getitem INIT_HP "MAX_ACTION";
         batch_size ← getitem INIT_HP "BATCH_SIZE";
         lr ← getitem INIT_HP "LR";
         learn_step ← getitem INIT_HP "LEARN_STEP";
         gamma ← getitem INIT_HP "GAMMA";
         tau ← getitem INIT_HP "TAU";
         policy_freq ← getitem INIT_HP "POLICY_FREQ";
         let agent := TD3 state_dim action_dim one_hot max_action idx net_config
                          batch_size lr learn_step gamma tau policy_freq
                          device accelerator in
         Ok (population ++ [agent])%list)
      population
  else if decide (algo = "MADDPG") then
    for_in (range population_size)
      (λ idx population,
         n_agents ← getitem INIT_HP "N_AGENTS";
         agent_ids ← getitem INIT_HP "AGENT_IDS";
         max_action ← getitem INIT_HP "MAX_ACTION";
         min_action ← getitem INIT_HP "MIN_ACTION";
         batch_size ← getitem INIT_HP "BATCH_SIZE";
         lr ← getitem INIT_HP "LR";
         learn_step ← getitem INIT_HP "LEARN_STEP";
         gamma ← getitem INIT_HP "GAMMA";
         tau ← getitem INIT_HP "TAU";
         discrete_actions ← getitem INIT_HP "DISCRETE_ACTIONS";
         let agent := MADDPG state_dim action_dim one_hot n_agents agent_ids idx
                             max_action min_action net_config batch_size lr
                             learn_step gamma tau discrete_actions
                             device accelerator in
         Ok (population ++ [agent])%list)
      population
  else if decide (algo = "MATD3") then
    for_in (range population_size)
      (λ idx population,
         n_agents ← getitem INIT_HP "N_AGENTS";
         agent_ids ← getitem INIT_HP "AGENT_IDS";
         max_action ← getitem INIT_HP "MAX_ACTION";
         min_action ← getitem INIT_HP "MIN_ACTION";
         batch_size ← getitem INIT_HP "BATCH_SIZE";
         lr ← getitem INIT_HP "LR";
         policy_freq ← getitem INIT_HP "POLICY_FREQ";
         learn_step ← getitem INIT_HP "LEARN_STEP";
         gamma ← getitem INIT_HP "GAMMA";
         tau ← getitem INIT_HP "TAU";
         discrete_actions ← getitem INIT_HP "DISCRETE_ACTIONS";
         let agent := MATD3 state_dim action_dim one_hot n_agents agent_ids idx
                            max_action min_action net_config batch_size lr
                            policy_freq learn_step gamma tau discrete_actions
                            device accelerator in
         Ok (population ++ [agent])%list)
      population
  else Ok population.

(** The hyperparameters [initialPopulation] reads for an algorithm. *)
Definition hyperparameters (algo : string) : list string :=
  if decide (algo = "DQN" ∨ algo = "CQN") then
    ["BATCH_SIZE"; "LR"; "LEARN_STEP"; "GAMMA"; "TAU"; "DOUBLE"]
  else if decide (algo = "DDPG") then
    ["BATCH_SIZE"; "LR"; "LEARN_STEP"; "GAMMA"; "TAU"; "POLICY_FREQ"]
  else if decide (algo = "TD3") then
    ["MAX_ACTION"; "BATCH_SIZE"; "LR"; "LEARN_STEP"; "GAMMA"; "TAU"; "POLICY_FREQ"]
  else if decide (algo = "MADDPG") then
    ["N_AGENTS"; "AGENT_IDS"; "MAX_ACTION"; "MIN_ACTION"; "BATCH_SIZE"; "LR";
     "LEARN_STEP"; "GAMMA"; "TAU"; "DISCRETE_ACTIONS"]
  else if decide (algo = "MATD3") then
    ["N_AGENTS"; "AGENT_IDS"; "MAX_ACTION"; "MIN_ACTION"; "BATCH_SIZE"; "LR";
     "POLICY_FREQ"; "LEARN_STEP"; "GAMMA"; "TAU"; "DISCRETE_ACTIONS"]
  else [].

Definition supported : list string :=
  ["DQN"; "DDPG"; "CQN"; "TD3"; "MADDPG"; "MATD3"].
End population.

Arguments agent V : clear implicits.

(** ** The forward pass, on shapes *)

(** What the forward pass needs of a tensor is its shape. The operations
    of torch are those of its documentation, on shapes. *)

(** An observation handed to [forward]: a tensor, an array that is not a
    tensor, a dictionary or a tuple of observations. *)
Inductive observation :=
  | OTensor (shape : list Z)
  | OArray (shape : list Z)
  | ODict (entries : list (string * observation))
  | OTuple (items : list observation).

(** [torch.tensor(obs)]: an array gives the tensor of its shape; a tuple of
    arrays of one shape is stacked; a dictionary has no tensor. *)
Definition torch_tensor (obs : observation) : result (list Z) :=
  match obs with
  | OTensor shape | OArray shape => Ok shape
  | ODict _ => Raise (RuntimeError "Could not infer dtype of dict")
  | OTuple items =>
      match items with
      | OArray shape :: items' =>
          if forallb (λ o, match o with
                           | OArray shape' => bool_decide (shape' = shape)
                           | _ => false
                           end) items'
          then Ok (Z.of_nat (length items) :: shape)
          else Raise (ValueError "expected sequence of equal shape")
      | _ => Raise (ValueError "cannot convert the sequence to a tensor")
      end
  end.

(** [nn.Flatten()]: every dimension from the second on becomes one. *)
Definition flatten (shape : list Z) : result (list Z) :=
  match shape with
  | b :: d :: rest => Ok [b; foldr Z.mul 1 (d :: rest)]
  | _ => Raise (IndexError "Dimension out of range")
  end.

(** [t.unsqueeze(dim)]: a dimension of size one at position [dim], counted
    from the end when negative. *)
Definition unsqueeze (dim : Z) (shape : list Z) : result (list Z) :=
  let r := Z.of_nat (length shape) in
  if bool_decide (- (r + 1) <= dim <= r) then
    let i := Z.to_nat (if bool_decide (dim < 0) then dim + r + 1 else dim) in
    Ok (take i shape ++ 1 :: drop i shape)%list
  else Raise (IndexError "Dimension out of range").

(** [torch.cat(tensors, dim=1)]: empty one-dimensional tensors are left
    out; the others agree on every dimension but the second, which adds
    up. *)
Definition cat1 (tensors : list (list Z)) : result (list Z) :=
  match filter (λ sh, sh ≠ [0]) tensors with
  | [] =>
      match tensors with
      | [] => Raise (RuntimeError "torch.cat(): expected a non-empty list of Tensors")
      | _ => Ok [0]
      end
  | (b :: d :: rest) :: others =>
      if forallb (λ sh, match sh with
                        | b' :: _ :: rest' => bool_decide (b' = b ∧ rest' = rest)
                        | _ => false
                        end) others
      then Ok (b :: foldr Z.add d ((λ sh, default 0 (sh !! 1%nat)) <$> others) :: rest)
      else Raise (RuntimeError "torch.cat(): the tensors do not match outside dimension 1")
  | _ :: _ => Raise (IndexError "Dimension out of range")
  end.

(** A layer on the last dimension: it takes [in_dim] features there and
    gives [out_dim]. *)
Definition on_last_dim (in_dim out_dim : Z) (shape : list Z) : result (list Z) :=
  match reverse shape with
  | last :: front =>
      if bool_decide (last = in_dim) then Ok (reverse (out_dim :: front))
      else Raise (RuntimeError "mat1 and mat2 shapes cannot be multiplied")
  | [] => Raise (RuntimeError "input has no dimension")
  end.

(** [nn.Linear] applied *)
Definition linear (l : Linear) (shape : list Z) : result (list Z) :=
  on_last_dim (in_features l) (out_features l) shape.

(** [nn.LayerNorm] applied *)
Definition layer_norm (l : LayerNorm) (shape : list Z) : result (list Z) :=
  on_last_dim (normalized_shape l) (normalized_shape l) shape.

(** The keyword [num_outputs] of an encoder's constructor call. *)
Definition declared_outputs (kwargs : config) : Z :=
  match kwargs !! "num_outputs" with
  | Some (PInt n) => n
  | _ => 0
  end.

(** Modelled from the spec: the forward pass of an encoder whose class is
    absent; "a forward pass through every module produces tensors of the
    exact shape its declared output dimensionality implies": a batch of
    images of the declared input shape gives a batch of [num_outputs]
    features, a batch of [num_inputs] features likewise. [nn.Flatten] is
    torch's. A nested [EvolvableMultiInput] is this class: its [forward]
    calls [x.items()], which a tensor does not have. *)
Definition encoder_forward (e : encoder) (shape : list Z) : result (list Z) :=
  match e with
  | NestedMultiInput _ _ _ =>
      Raise (AttributeError "'Tensor' object has no attribute 'items'")
  | EvolvableCNN input_shape _ kwargs =>
      match shape with
      | b :: image =>
          if bool_decide (image = input_shape) then Ok [b; declared_outputs kwargs]
          else Raise (RuntimeError "input does not have the declared shape")
      | [] => Raise (RuntimeError "input does not have the declared shape")
      end
  | Flatten => flatten shape
  | EvolvableMLP num_inputs _ kwargs =>
      on_last_dim num_inputs (declared_outputs kwargs) shape
  end.

Section forward_pass.
Context {G : Type} {T : Type}.

Implicit Types self : @EvolvableMultiInput G T.

(** [d[key]] on an ordered dictionary *)
Definition getkey {V} (d : list (string * V)) (key : string) : result V :=
  match lookup_key key d with
  | Some v => Ok v
  | None => Raise (KeyError key)
  end.

(** [d.pop(key)] on an ordered dictionary: the rest of it. *)
Definition delkey {V} (key : string) (d : list (string * V)) : list (string * V) :=
  filter (λ kv, kv.1 ≠ key) d.

(** The first loop of [forward]: every entry that is not a tensor becomes
    one. *)
Fixpoint to_tensors (x : list (string * observation))
    (acc : list (string * list Z)) : result (list (string * list Z)) :=
  match x with
  | [] => Ok acc
  | (key, obs) :: x' =>
      t ← match obs with
          | OTensor shape => Ok shape
          | _ => torch_tensor obs
          end;
      to_tensors x' (setitem key t acc)
  end.

(** The loop over [x.keys()] that fills [extracted_features]. *)
Fixpoint extract self (x : list (string * list Z)) (ks : list string)
    (extracted_features : list (string * list Z))
    : result (list (string * list Z)) :=
  match ks with
  | [] => Ok extracted_features
  | key :: ks' =>
      if bool_decide (key ∈ keys (arch (feature_net self))) then
        net ← getkey (arch (feature_net self)) key;
        obs ← getkey x key;
        t ← encoder_forward net obs;
        extract self x ks' (setitem key t extracted_features)
      else extract self x ks' extracted_features
  end.

(** The loop over [self.vector_spaces.items()]: the vector inputs and what
    is left of [extracted_features]. *)
Fixpoint vectors (x : list (string * list Z)) (vs : list (string * space))
    (extracted_features : list (string * list Z)) (vector_inputs : list (list Z))
    : result (list (list Z) * list (string * list Z)) :=
  match vs with
  | [] => Ok (vector_inputs, extracted_features)
  | (key, sp) :: vs' =>
      '(_obs, extracted_features) ←
        (if bool_decide (key ∈ keys extracted_features)
         then t ← getkey extracted_features key; Ok (t, delkey key extracted_features)
         else t ← getkey x key; Ok (t, extracted_features));
      _obs ← (if bool_decide (length _obs = 1%nat)
              then unsqueeze (Z.of_nat (length (space_shape sp)) - 1) _obs
              else Ok _obs);
      vectors x vs' extracted_features (vector_inputs ++ [_obs])%list
  end.

(** [forward]: the shape of the tensor it returns. *)
Definition forward self (x : observation) : result (list Z) :=
  x ← match x with
      | OTuple items => Ok (zip (keys (observation_space self)) items)
      | ODict entries => Ok entries
      | _ => Raise (AttributeError "'Tensor' object has no attribute 'items'")
      end;
  x ← to_tensors x [];
  extracted_features ←
    (if bool_decide (extracted_features_dim self > 0)
     then extract self x (keys x) []
     else Ok []);
  '(vector_inputs, extracted_features) ←
    vectors x (vector_spaces self) extracted_features [];
  vector_inputs ←
    (if bool_decide (vector_inputs ≠ []) then cat1 vector_inputs else Ok [0]);
  vector_features ←
    (if vector_space_mlp self then
       net ← match mlp_name self with
             | Some mlp_name => getkey (arch (feature_net self)) mlp_name
             | None => Raise (KeyError "None")
             end;
       encoder_forward net vector_inputs
     else Ok vector_inputs);
  extracted_features ←
    (if bool_decide (extracted_features ≠ [])
     then cat1 extracted_features.*2 else Ok [0]);
  features ← cat1 [extracted_features; vector_features];
  latent ← linear (arch (final_dense self)) features;
  latent ←
    (if output_layernorm self then
       match final_layernorm self with
       | Some ln => layer_norm ln latent
       | None => Raise (TypeError "'NoneType' object is not callable")
       end
     else Ok latent);
  Ok latent.
End forward_pass.

(** ** Instances of the collaborators, for running the model *)

(** A linear congruential generator: the handle is its state. *)
Definition lcg_next (g : Z) : Z := (g * 1103515245 + 12345) `mod` 2147483648.

Definition lcg_choice (options : list Z) (g : Z) : Z * Z :=
  (default 0 (options !! Z.to_nat (g `mod` Z.of_nat (length options))), lcg_next g).

#[global] Instance lcg : Generator Z.
Proof.
  refine {| default_rng := λ seed, seed; choice := lcg_choice |}.
  intros options g Hne. unfold lcg_choice. simpl.
  assert (Hlen : (0 < length options)%nat) by (destruct options; [done | simpl; lia]).
  destruct (lookup_lt_is_Some_2 options
              (Z.to_nat (g `mod` Z.of_nat (length options)))) as [x Hx].
  { pose proof (Z.mod_pos_bound g (Z.of_nat (length options))). lia. }
  rewrite Hx. simpl. by eapply list_elem_of_lookup_2.
Defined.

(** The helpers as gymnasium and AgileRL document them, on the spaces of
    the model. *)
Fixpoint gym_flatdim (sp : space) : Z :=
  match sp with
  | Box shape => foldr Z.mul 1 shape
  | Discrete n => n
  | MultiDiscrete nvec => foldr Z.add 0 nvec
  | MultiBinary n => n
  | Dict spaces =>
      (fix go (l : list (string * space)) : Z :=
         match l with
         | [] => 0
         | (_, s) :: l' => gym_flatdim s + go l'
         end) spaces
  | Tuple spaces =>
      (fix go (l : list space) : Z :=
         match l with
         | [] => 0
         | s :: l' => gym_flatdim s + go l'
         end) spaces
  end.

#[global] Instance gym_helpers : Helpers :=
  {| is_vector_space := λ sp,
       match sp with
       | Box shape => bool_decide (length shape ≤ 1)%nat
       | Discrete _ | MultiDiscrete _ | MultiBinary _ => true
       | Dict _ | Tuple _ => false
       end;
     is_image_space := λ sp,
       match sp with
       | Box shape => bool_decide (length shape = 3%nat)
       | _ => false
       end;
     tuple_to_dict_space := λ spaces, imap (λ i sp, (pretty i, sp)) spaces;
     flatdim := gym_flatdim |}.

(** Parameters that start at zero. *)
#[global] Instance zero_initializer : Initializer Z :=
  {| init_linear := λ l,
       let o := Z.to_nat (out_features l) in
       let i := Z.to_nat (in_features l) in
       <["weight" := Tensor [o; i] (replicate (o * i) 0)]>
         {["bias" := Tensor [o] (replicate o 0)]};
     init_encoders := λ _, ∅ |}.

(** An image and a vector, ten outputs, the given latent dimension and the
    bounds of the signature. *)
Definition sample_args (latent_dim : Z) (seed : option Z) : init_args :=
  {| arg_observation_space := Dict [("image", Box [3; 32; 32]); ("vector", Box [4])];
     arg_num_outputs := 10;
     arg_latent_dim := latent_dim;
     arg_vector_space_mlp := false;
     arg_cnn_config := None;
     arg_mlp_config := None;
     arg_init_dicts := None;
     arg_output_activation := None;
     arg_output_layernorm := false;
     arg_min_latent_dim := 8;
     arg_max_latent_dim := 128;
     arg_device := "cpu";
     arg_name := "multi_input";
     arg_random_seed := seed |}.

(** The module [__init__] makes from [sample_args]; the placeholder stands
    for a construction that raises. *)
Definition sample_module (latent_dim : Z) (seed : option Z) : EvolvableMultiInput :=
  match __init__ (sample_args latent_dim seed) 0 with
  | Ok self => self
  | Raise _ => set_latent_dim latent_dim
      {| rng := 0; random_seed := None; device := ""; is_tuple_space := false;
         observation_space := []; num_outputs := 0; cnn_config := ∅;
         mlp_config := ∅; _init_dicts := ∅; _activation := None;
         mlp_name := None; vector_space_mlp := false; latent_dim := 0;
         output_activation := None; min_latent_dim := 0; max_latent_dim := 0;
         name := ""; output_layernorm := false; vector_spaces := [];
         total_vector_dims := 0; feature_net := Module_ [] ∅;
         extracted_features_dim := 0;
         final_dense := Module_ {| in_features := 0; out_features := 0 |} ∅;
         final_layernorm := None; output := None |}
  end.

(** The hyperparameters of a TD3 run, as numbers. *)
Definition sample_INIT_HP : gmap string Z :=
  list_to_map
    [("MAX_ACTION", 1); ("BATCH_SIZE", 64); ("LR", 1); ("LEARN_STEP", 1);
     ("GAMMA", 99); ("TAU", 1); ("POLICY_FREQ", 2)].

(** ** Further functions of the two files *)

(** [_reformat_mlp_config] of [EvolvableMultiInput]: the dictionary it
    returns, which is also the one it was given, updated. *)
Definition _reformat_mlp_config (config_ : config) : config :=
  let c := <["output_vanish" := PBool false]> config_ in
  let c := <["output_layernorm" := get c "layer_norm" (PBool true)]> c in
  <["output_activation" := get c "activation" (PStr "ReLU")]> c.

(** The class of an agent, under the name [initialPopulation] tests. *)
Definition agent_class {V} (a : agent V) : string :=
  match a with
  | DQN _ _ _ _ _ _ _ _ _ _ _ _ _ => "DQN"
  | DDPG _ _ _ _ _ _ _ _ _ _ _ _ _ => "DDPG"
  | CQN _ _ _ _ _ _ _ _ _ _ _ _ _ => "CQN"
  | TD3 _ _ _ _ _ _ _ _ _ _ _ _ _ _ => "TD3"
  | MADDPG _ _ _ _ _ _ _ _ _ _ _ _ _ _ _ _ _ => "MADDPG"
  | MATD3 _ _ _ _ _ _ _ _ _ _ _ _ _ _ _ _ _ _ => "MATD3"
  end.

(** The same constructor call with another [index]. *)
Definition with_index {V} (i : Z) (a : agent V) : agent V :=
  match a with
  | DQN a1 a2 a3 _ a4 a5 a6 a7 a8 a9 a10 a11 a12 =>
      DQN a1 a2 a3 i a4 a5 a6 a7 a8 a9 a10 a11 a12
  | DDPG a1 a2 a3 _ a4 a5 a6 a7 a8 a9 a10 a11 a12 =>
      DDPG a1 a2 a3 i a4 a5 a6 a7 a8 a9 a10 a11 a12
  | CQN a1 a2 a3 _ a4 a5 a6 a7 a8 a9 a10 a11 a12 =>
      CQN a1 a2 a3 i a4 a5 a6 a7 a8 a9 a10 a11 a12
  | TD3 a1 a2 a3 a4 _ a5 a6 a7 a8 a9 a10 a11 a12 a13 =>
      TD3 a1 a2 a3 a4 i a5 a6 a7 a8 a9 a10 a11 a12 a13
  | MADDPG a1 a2 a3 a4 a5 _ a6 a7 a8 a9 a10 a11 a12 a13 a14 a15 a16 =>
      MADDPG a1 a2 a3 a4 a5 i a6 a7 a8 a9 a10 a11 a12 a13 a14 a15 a16
  | MATD3 a1 a2 a3 a4 a5 _ a6 a7 a8 a9 a10 a11 a12 a13 a14 a15 a16 a17 =>
      MATD3 a1 a2 a3 a4 a5 i a6 a7 a8 a9 a10 a11 a12 a13 a14 a15 a16 a17
  end.

(** The five assertions of [__init__], together. *)
Definition accepted (a : init_args) : bool :=
  bool_decide (arg_num_outputs a > 0)
  && bool_decide (arg_latent_dim a > 0)
  && match arg_observation_space a with
     | Dict _ | Tuple _ => true
     | _ => false
     end
  && bool_decide (arg_latent_dim a <= arg_max_latent_dim a)
  && bool_decide (arg_latent_dim a >= arg_min_latent_dim a).

(** The keyword arguments of the constructor call of an evolvable
    extractor; [nn.Flatten] has none. *)
Definition encoder_kwargs (e : encoder) : option config :=
  match e with
  | NestedMultiInput _ _ kwargs | EvolvableCNN _ _ kwargs
  | EvolvableMLP _ _ kwargs => Some kwargs
  | Flatten => None
  end.

(** ** Vocabulary of the properties *)

Section vocabulary.
Context {G : Type} `{!Generator G} `{!Helpers} {T : Type} `{!Initializer T}.

Implicit Types (self : @EvolvableMultiInput G T) (mu : mutation).

(** The observation space of named vectors of the given lengths. *)
Definition vector_space_of (dims : list (string * Z)) : list (string * space) :=
  (λ kn, (kn.1, Box [kn.2])) <$> dims.

(** A batch of [b] observations of it, as tensors. *)
Definition vector_batch (b : Z) (dims : list (string * Z)) : list (string * observation) :=
  (λ kn, (kn.1, OTensor [b; kn.2])) <$> dims.

(** The keyword arguments an evolvable extractor is built with. *)
Definition built_for self (e : encoder) : Prop :=
  ∀ kwargs, encoder_kwargs e = Some kwargs →
    kwargs !! "num_outputs" = Some (PInt (latent_dim self))
    ∧ kwargs !! "device" = Some (PStr (device self))
    ∧ kwargs !! "name" = None.

(** The count a mutation works with: the requested one, or the drawn. *)
Definition count_of mu self : Z :=
  match requested mu with
  | Some n => n
  | None => (choice [8; 16; 32] (rng self)).1
  end.

(** The requested count would take the latent dimension past its bound. *)
Definition exceeds_bound mu self : Prop :=
  match mu with
  | AddLatentNode (Some n) => latent_dim self + n > max_latent_dim self
  | RemoveLatentNode (Some n) => latent_dim self - n < min_latent_dim self
  | _ => False
  end.





(** The number of input features the final dense layer is built for. *)
Definition features_dim self : Z :=
  calc_extracted_features_dim self
  + total_vector_dims self * (1 - Z.b2z (vector_space_mlp self)).

(** The final dense layer maps [features_dim] inputs to [num_outputs]. *)
Definition dense_consistent self : Prop :=
  arch (final_dense self)
  = {| in_features := features_dim self; out_features := num_outputs self |}.

End vocabulary.

(** * Properties *)

(** ** The latent dimension under mutation *)

Section latent_properties.
Context {G : Type} `{!Generator G} `{!Helpers} {T : Type} `{!Initializer T}.

Implicit Types (self : @EvolvableMultiInput G T) (mu : mutation).

(** A drawn node count is one of 8, 16 and 32, hence positive. *)
Lemma rng_choice_drawn self :
  (rng_choice [8; 16; 32] self).1 ∈ [8; 16; 32]
  ∧ (rng_choice [8; 16; 32] self).2 = set_rng (choice [8; 16; 32] (rng self)).2 self.
Proof.
  unfold rng_choice.
  pose proof (choice_elem [8; 16; 32] (rng self)) as Hin.
  destruct (choice [8; 16; 32] (rng self)) as [n g]. simpl in *.
  split; [by apply Hin | done].
Qed.

Lemma count_of_positive mu self :
  (∀ n, requested mu = Some n → 0 < n) → 0 < count_of mu self.
Proof.
  intros Hpos. unfold count_of. destruct (requested mu) as [n|]; [by apply Hpos |].
  pose proof (choice_elem [8; 16; 32] (rng self)) as Hin.
  assert (Hne : [8; 16; 32] ≠ []) by done. specialize (Hin Hne).
  set_unfold in Hin. lia.
Qed.

(** What one mutation does to the latent dimension, and that it leaves the
    bounds alone. *)
Lemma mutate_latent_dim mu self :
  let self' := (mutate mu self).2 in
  min_latent_dim self' = min_latent_dim self
  ∧ max_latent_dim self' = max_latent_dim self
  ∧ num_outputs self' = num_outputs self
  ∧ latent_dim self' =
      match mu with
      | AddLatentNode _ =>
          if bool_decide (latent_dim self + count_of mu self < max_latent_dim self)
          then latent_dim self + count_of mu self else latent_dim self
      | RemoveLatentNode _ =>
          if bool_decide (latent_dim self - count_of mu self > min_latent_dim self)
          then latent_dim self - count_of mu self else latent_dim self
      end.
Proof.
  destruct mu as [[n|]|[n|]]; simpl;
    unfold add_latent_node, remove_latent_node, rng_choice, count_of; simpl;
    try destruct (choice [8; 16; 32] (rng self)) as [k g]; simpl;
    case_bool_decide; simpl; done.
Qed.

Lemma mutate_within_bounds mu self :
  (∀ n, requested mu = Some n → 0 < n) →
  min_latent_dim self <= latent_dim self <= max_latent_dim self →
  min_latent_dim self <= latent_dim (mutate mu self).2 <= max_latent_dim self.
Proof.
  intros Hpos Hb.
  destruct (mutate_latent_dim mu self) as (_ & _ & _ & ->).
  pose proof (count_of_positive mu self Hpos).
  destruct mu; case_bool_decide; lia.
Qed.

(** C1. Bounded growth of the latent dimension: when [latent_dim] starts
    between [min_latent_dim] and [max_latent_dim], it is still between them
    after any finite sequence of [add_latent_node] and [remove_latent_node]
    calls whose requested node counts are positive (a count left to the
    generator is one of 8, 16, 32); the bounds themselves do not move. *)
Theorem latent_dim_stays_within_bounds (mus : list mutation) self :
  min_latent_dim self <= latent_dim self <= max_latent_dim self →
  Forall (λ mu, ∀ n, requested mu = Some n → 0 < n) mus →
  let self' := (mutate_all mus self).2 in
  min_latent_dim self' = min_latent_dim self
  ∧ max_latent_dim self' = max_latent_dim self
  ∧ min_latent_dim self' <= latent_dim self' <= max_latent_dim self'.
Proof.
  intros Hb Hpos. revert self Hb.
  induction Hpos as [|mu mus Hmu _ IH]; intros self Hb; simpl; [done |].
  destruct (mutate mu self) as [d self1] eqn:Hstep.
  pose proof (mutate_latent_dim mu self) as (Hmin & Hmax & _ & _).
  pose proof (mutate_within_bounds mu self Hmu Hb) as Hb1.
  rewrite Hstep in Hmin, Hmax, Hb1. simpl in *.
  specialize (IH self1). rewrite Hmin, Hmax in IH. specialize (IH Hb1).
  destruct (mutate_all mus self1) as [ds self2]. simpl in *.
  destruct IH as (-> & -> & ?). done.
Qed.

Lemma bind_Ok {A B} (r : result A) (k : A → result B) (b : B) :
  r ≫= k = Ok b → ∃ a, r = Ok a ∧ k a = Ok b.
Proof. destruct r as [a|e]; [eauto | discriminate]. Qed.

Lemma assert_Ok (cond : bool) (msg : string) (u : unit) :
  assert cond msg = Ok u → cond = true.
Proof. by destruct cond. Qed.

(** C3. A requested count that would take the latent dimension past its
    bound: the call returns its dictionary, raises nothing, and leaves the
    module, hence the whole store, as it was. *)
Theorem bound_violation_is_noop mu self (n : Z) (l : positive)
    (h : gmap positive (@EvolvableMultiInput G T)) :
  requested mu = Some n →
  exceeds_bound mu self →
  h !! l = Some self →
  mutate mu self = ({["numb_new_nodes" := n]}, self)
  ∧ call (mutate mu) l h = Some ({["numb_new_nodes" := n]}, h).
Proof.
  intros Hreq Hex Hl.
  assert (Hm : mutate mu self = ({["numb_new_nodes" := n]}, self)).
  { destruct mu as [[k|]|[k|]]; simpl in *; try done;
      injection Hreq as ->;
      unfold add_latent_node, remove_latent_node;
      rewrite bool_decide_eq_false_2 by lia; done. }
  split; [done |].
  unfold call. rewrite Hl. simpl. rewrite Hm. by rewrite insert_id.
Qed.

(** When the count is left to the generator, a bound violation leaves every
    attribute but the generator as it was. *)
Lemma drawn_bound_violation_is_noop mu self :
  requested mu = None →
  match mu with
  | AddLatentNode _ => latent_dim self + count_of mu self >= max_latent_dim self
  | RemoveLatentNode _ => latent_dim self - count_of mu self <= min_latent_dim self
  end →
  (mutate mu self).2 = set_rng (choice [8; 16; 32] (rng self)).2 self.
Proof.
  intros Hreq Hex. unfold count_of in Hex. rewrite Hreq in Hex.
  destruct mu as [k|k]; simpl in Hreq; subst k; simpl;
    unfold add_latent_node, remove_latent_node, rng_choice;
    destruct (choice [8; 16; 32] (rng self)) as [k g]; simpl in *;
    rewrite bool_decide_eq_false_2 by lia; done.
Qed.

(** The dictionary a latent mutation returns. *)
Lemma mutate_descriptor mu self :
  (mutate mu self).1 = {["numb_new_nodes" := count_of mu self]}.
Proof.
  destruct mu as [[n|]|[n|]]; simpl;
    unfold add_latent_node, remove_latent_node, rng_choice, count_of; simpl;
    try destruct (choice [8; 16; 32] (rng self)) as [k g]; done.
Qed.

(** C5, as the code has it. The dictionary a latent mutation returns holds
    the node count the call worked with and nothing else: two calls that
    work with the same count return the same dictionary, whether the count
    was applied or a bound stopped it. *)
Theorem descriptor_reports_count_only mu self :
  (mutate mu self).1 = {["numb_new_nodes" := count_of mu self]}
  ∧ ∀ mu2 self2, count_of mu2 self2 = count_of mu self →
      (mutate mu2 self2).1 = (mutate mu self).1.
Proof.
  split; [apply mutate_descriptor |].
  intros mu2 self2 Hc. by rewrite !mutate_descriptor, Hc.
Qed.

(** A requested count that keeps the latent dimension strictly below the
    maximum is added in full. *)
Lemma add_latent_node_applies self (n : Z) :
  latent_dim self + n < max_latent_dim self →
  add_latent_node (Some n) self
  = ({["numb_new_nodes" := n]}, set_latent_dim (latent_dim self + n) self).
Proof.
  intros Hlt. unfold add_latent_node. by rewrite bool_decide_eq_true_2.
Qed.

(** C8. From a latent dimension of 64 with bounds 8 and 128, three calls of
    [add_latent_node(16)] give 80, 96 and 112, each in full. *)
Theorem add_sixteen_three_times self :
  latent_dim self = 64 →
  min_latent_dim self = 8 →
  max_latent_dim self = 128 →
  let self1 := (add_latent_node (Some 16) self).2 in
  let self2 := (add_latent_node (Some 16) self1).2 in
  let self3 := (add_latent_node (Some 16) self2).2 in
  latent_dim self1 = 80 ∧ latent_dim self2 = 96 ∧ latent_dim self3 = 112.
Proof.
  intros Hl Hmin Hmax. cbv zeta.
  rewrite (add_latent_node_applies self 16) by lia. cbn [snd].
  rewrite (add_latent_node_applies _ 16) by (simpl; lia). cbn [snd].
  rewrite (add_latent_node_applies _ 16) by (simpl; lia). simpl.
  lia.
Qed.

(** ** Determinism of the draws *)


(** ** Mutation in place *)

End latent_properties.

(** ** The latent properties on the sample module *)

(** Four mutations of the sample module, one of them drawn. *)
Lemma latent_dim_stays_within_bounds_witness :
  let self := sample_module 64 (Some 7) in
  let mus := [AddLatentNode (Some 16); RemoveLatentNode None;
              AddLatentNode (Some 100); RemoveLatentNode (Some 60)] in
  let self' := (mutate_all mus self).2 in
  min_latent_dim self <= latent_dim self <= max_latent_dim self
  ∧ Forall (λ mu, ∀ n, requested mu = Some n → 0 < n) mus
  ∧ min_latent_dim self' = min_latent_dim self
  ∧ max_latent_dim self' = max_latent_dim self
  ∧ min_latent_dim self' <= latent_dim self' <= max_latent_dim self'.
Proof.
  assert (Hb : min_latent_dim (sample_module 64 (Some 7))
               <= latent_dim (sample_module 64 (Some 7))
               <= max_latent_dim (sample_module 64 (Some 7))).
  { vm_compute. split; discriminate. }
  assert (Hpos : Forall (λ mu, ∀ n, requested mu = Some n → 0 < n)
                   [AddLatentNode (Some 16); RemoveLatentNode None;
                    AddLatentNode (Some 100); RemoveLatentNode (Some 60)]).
  { repeat constructor; simpl; intros n Hn; try discriminate Hn;
      injection Hn as <-; lia. }
  split; [exact Hb |]. split; [exact Hpos |].
  exact (latent_dim_stays_within_bounds _ (sample_module 64 (Some 7)) Hb Hpos).
Defined.

(** Sixteen nodes more at latent dimension 120, the maximum being 128. *)
Lemma bound_violation_is_noop_witness :
  let self := sample_module 120 None in
  let mu := AddLatentNode (Some 16) in
  let h : gmap positive EvolvableMultiInput := {[1%positive := self]} in
  requested mu = Some 16
  ∧ exceeds_bound mu self
  ∧ h !! 1%positive = Some self
  ∧ mutate mu self = ({["numb_new_nodes" := 16]}, self)
  ∧ call (mutate mu) 1%positive h = Some ({["numb_new_nodes" := 16]}, h).
Proof.
  assert (Hex : exceeds_bound (AddLatentNode (Some 16)) (sample_module 120 None)).
  { vm_compute. reflexivity. }
  assert (Hl : ({[1%positive := sample_module 120 None]}
                : gmap positive EvolvableMultiInput) !! 1%positive
               = Some (sample_module 120 None)).
  { apply lookup_singleton_eq. }
  split; [reflexivity |]. split; [exact Hex |]. split; [exact Hl |].
  exact (bound_violation_is_noop (AddLatentNode (Some 16)) (sample_module 120 None)
           16 1%positive _ eq_refl Hex Hl).
Defined.

(** The scenario on the sample module. *)
Lemma add_sixteen_three_times_witness :
  let self := sample_module 64 None in
  let self1 := (add_latent_node (Some 16) self).2 in
  let self2 := (add_latent_node (Some 16) self1).2 in
  let self3 := (add_latent_node (Some 16) self2).2 in
  latent_dim self = 64 ∧ min_latent_dim self = 8 ∧ max_latent_dim self = 128
  ∧ latent_dim self1 = 80 ∧ latent_dim self2 = 96 ∧ latent_dim self3 = 112.
Proof.
  split; [reflexivity |]. split; [reflexivity |]. split; [reflexivity |].
  exact (add_sixteen_three_times (sample_module 64 None) eq_refl eq_refl eq_refl).
Defined.



(** The same request, applied from 64 and stopped from 120. *)
Lemma descriptor_reports_count_only_witness :
  let applied := sample_module 64 None in
  let stopped := sample_module 120 None in
  let mu := AddLatentNode (Some 16) in
  (mutate mu applied).1 = {["numb_new_nodes" := 16]}
  ∧ count_of mu stopped = count_of mu applied
  ∧ (mutate mu stopped).1 = (mutate mu applied).1
  ∧ latent_dim (mutate mu applied).2 = 80
  ∧ latent_dim (mutate mu stopped).2 = 120.
Proof.
  pose proof (descriptor_reports_count_only (AddLatentNode (Some 16))
                (sample_module 64 None)) as [Hd Hsame].
  split; [exact Hd |]. split; [reflexivity |].
  split; [exact (Hsame (AddLatentNode (Some 16)) (sample_module 120 None) eq_refl) |].
  split; reflexivity.
Defined.


(** C5 as stated fails: [add_latent_node(16)] returns the same dictionary
    from latent dimension 120, where the bound 128 stops it, and from 64,
    where it goes through; nothing computed from the dictionary tells the
    two apart. *)
Lemma descriptor_flags_noop_counterexample :
  ¬ ∃ flag : gmap string Z → bool,
      ∀ (self : @EvolvableMultiInput Z Z) (mu : mutation) (n : Z),
        requested mu = Some n →
        (exceeds_bound mu self → flag (mutate mu self).1 = true)
        ∧ ((mutate mu self).2 ≠ self → flag (mutate mu self).1 = false).
Proof.
  intros [flag Hflag].
  destruct (Hflag (sample_module 120 None) (AddLatentNode (Some 16)) 16 eq_refl)
    as [Hnoop _].
  destruct (Hflag (sample_module 64 None) (AddLatentNode (Some 16)) 16 eq_refl)
    as [_ Hchanged].
  rewrite mutate_descriptor in Hnoop, Hchanged.
  unfold count_of in Hnoop, Hchanged. simpl in Hnoop, Hchanged.
  assert (Hn : flag {["numb_new_nodes" := 16]} = true).
  { apply Hnoop. vm_compute. reflexivity. }
  assert (Hc : flag {["numb_new_nodes" := 16]} = false).
  { apply Hchanged. intros Heq. apply (f_equal latent_dim) in Heq.
    vm_compute in Heq. discriminate Heq. }
  congruence.
Qed.

(** ** The weight transplant *)

Section transplant_properties.
Context {T : Type}.

Implicit Types (t old new : tensor T) (s : list nat).

Lemma indices_cons (n : nat) s :
  indices (n :: s) = seq 0 n ≫= λ i, cons i <$> indices s.
Proof. done. Qed.

Lemma length_indices s : length (indices s) = numel s.
Proof.
  induction s as [|n s IH]; [done |].
  rewrite indices_cons. change (numel (n :: s)) with (n * numel s)%nat.
  generalize 0%nat. induction n as [|n IHn]; intros a; [done |].
  change (seq a (S n)) with (a :: seq (S a) n).
  rewrite bind_cons, length_app, length_fmap, IH, IHn. lia.
Qed.

(** Reading the data of a tensor of shape [s] that starts at [base] in [D],
    index by index in row-major order, gives that stretch of [D] back. *)
Lemma row_major_read s (D : list T) (base : nat) (dnew : list T) :
  length dnew = numel s →
  (base + numel s ≤ length D)%nat →
  zip_with
    (λ idx x, if within idx s then default x (D !! (base + offset s idx)%nat) else x)
    (indices s) dnew
  = take (numel s) (drop base D).
Proof.
  revert D base dnew.
  induction s as [|n s IH]; intros D base dnew Hlen Hfit.
  - simpl in *. destruct dnew as [|x [|??]]; simplify_eq/=.
    rewrite Nat.add_0_r.
    destruct (lookup_lt_is_Some_2 D base) as [y Hy]; [lia |].
    rewrite Hy. simpl. by rewrite (drop_S _ y) by done.
  - rewrite indices_cons.
    change (numel (n :: s)) with (n * numel s)%nat in *.
    set (P := numel s) in *.
    set (F := λ (idx : list nat) (x : T),
                if within idx (n :: s)
                then default x (D !! (base + offset (n :: s) idx)%nat) else x).
    assert (Hrows : ∀ m a dn,
              length dn = (m * P)%nat → (a + m ≤ n)%nat →
              zip_with F (seq a m ≫= λ i, cons i <$> indices s) dn
              = take (m * P) (drop (base + a * P) D)).
    { induction m as [|m IHm]; intros a dn Hdn Ham; [done |].
      change (seq a (S m)) with (a :: seq (S a) m).
      rewrite bind_cons.
      rewrite <- (take_drop P dn).
      rewrite zip_with_app.
      2:{ rewrite length_fmap, length_indices, length_take. subst P. lia. }
      rewrite zip_with_fmap_l.
      rewrite (zip_with_ext _
                 (λ idx x, if within idx s
                           then default x (D !! ((base + a * P) + offset s idx)%nat)
                           else x) _ (indices s) _ (take P dn)); [| | done | done].
      2:{ intros idx x. unfold F. simpl. rewrite bool_decide_eq_true_2 by lia.
          simpl. by rewrite Nat.add_assoc. }
      rewrite IH.
      2:{ rewrite length_take. subst P. lia. }
      2:{ subst P. nia. }
      rewrite IHm.
      2:{ rewrite length_drop. lia. }
      2:{ lia. }
      change (S m * P)%nat with (P + m * P)%nat.
      rewrite <- take_take_drop. f_equal. rewrite drop_drop. f_equal. f_equal. lia. }
    specialize (Hrows n 0%nat dnew Hlen ltac:(lia)).
    by rewrite Nat.add_0_r in Hrows.
Qed.

(** The overlap of two equal shapes is the whole tensor. *)
Lemma copy_overlap_same_shape old new :
  well_formed old → well_formed new → shape new = shape old →
  copy_overlap old new = old.
Proof.
  unfold well_formed, copy_overlap, item. intros Ho Hn Hs.
  rewrite Hs in *. rewrite bool_decide_eq_true_2 by done.
  destruct old as [s d]. simpl in *. f_equal.
  assert (Hfit : (0 + numel s ≤ length d)%nat) by lia.
  pose proof (row_major_read s d 0 (data new) Hn Hfit) as Hread.
  simpl in Hread. rewrite Hread. apply take_ge. by rewrite Ho.
Qed.

Lemma transplant_lookup (old new : gmap string (tensor T)) (name : string) :
  transplant old new !! name =
    (λ tn, match old !! name with
           | Some to => copy_overlap to tn
           | None => tn
           end) <$> new !! name.
Proof.
  unfold transplant. rewrite map_lookup_imap. by destruct (new !! name).
Qed.

(** C6, as the transplant has it. When every parameter and buffer of [old]
    is in [new] under its name with the same shape, [preserve_parameters]
    returns the new module with every entry of [old] in it, equal to
    [old]'s; an entry that only [new] has keeps the value [new] was built
    with; and when [new] has no such entry, the returned state is [old]'s
    state. *)
Theorem preserve_parameters_exact {A} (old_net new_net : nn_module T A) :
  map_Forall (λ _, well_formed) (state_dict old_net) →
  map_Forall (λ _, well_formed) (state_dict new_net) →
  (∀ name t, state_dict old_net !! name = Some t →
     ∃ t', state_dict new_net !! name = Some t' ∧ shape t' = shape t) →
  let net := preserve_parameters old_net new_net in
  arch net = arch new_net
  ∧ (∀ name t, state_dict old_net !! name = Some t →
       state_dict net !! name = Some t)
  ∧ (∀ name, state_dict old_net !! name = None →
       state_dict net !! name = state_dict new_net !! name)
  ∧ (dom (state_dict new_net) ⊆ dom (state_dict old_net) →
       state_dict net = state_dict old_net).
Proof.
  intros Ho Hn Hsame. simpl.
  assert (Hold : ∀ name t, state_dict old_net !! name = Some t →
                 transplant (state_dict old_net) (state_dict new_net) !! name = Some t).
  { intros name t Ht. destruct (Hsame name t Ht) as (t' & Ht' & Hs).
    rewrite transplant_lookup, Ht', Ht. simpl. f_equal.
    apply copy_overlap_same_shape; [by eapply Ho | by eapply Hn | done]. }
  assert (Hnew : ∀ name, state_dict old_net !! name = None →
                 transplant (state_dict old_net) (state_dict new_net) !! name
                 = state_dict new_net !! name).
  { intros name Hnone. rewrite transplant_lookup, Hnone.
    by destruct (state_dict new_net !! name). }
  split_and!; [done | done | done |].
  intros Hdom. apply map_eq. intros name.
  destruct (state_dict old_net !! name) as [t|] eqn:Ht.
  - by apply Hold.
  - rewrite Hnew by done. apply not_elem_of_dom.
    intros Hin. apply Hdom in Hin. by apply not_elem_of_dom in Ht.
Qed.
End transplant_properties.

(** A trained two-by-two linear layer transplanted into a fresh one. *)
Lemma preserve_parameters_exact_witness :
  let w : tensor Z := Tensor [2; 2]%nat [1; 2; 3; 4] in
  let b : tensor Z := Tensor [2]%nat [5; 6] in
  let l := {| in_features := 2; out_features := 2 |} in
  let old_net : nn_module Z Linear := Module_ l (<["weight" := w]> {["bias" := b]}) in
  let new_net : nn_module Z Linear := new_linear 2 2 in
  let net := preserve_parameters old_net new_net in
  map_Forall (λ _, well_formed) (state_dict old_net)
  ∧ map_Forall (λ _, well_formed) (state_dict new_net)
  ∧ (∀ name t, state_dict old_net !! name = Some t →
       ∃ t', state_dict new_net !! name = Some t' ∧ shape t' = shape t)
  ∧ arch net = arch new_net
  ∧ (∀ name t, state_dict old_net !! name = Some t →
       state_dict net !! name = Some t)
  ∧ (∀ name, state_dict old_net !! name = None →
       state_dict net !! name = state_dict new_net !! name)
  ∧ (dom (state_dict new_net) ⊆ dom (state_dict old_net) →
       state_dict net = state_dict old_net).
Proof.
  set (w := Tensor [2; 2]%nat [1; 2; 3; 4] : tensor Z).
  set (b := Tensor [2]%nat [5; 6] : tensor Z).
  set (l := {| in_features := 2; out_features := 2 |}).
  set (old_net := Module_ l (<["weight" := w]> {["bias" := b]}) : nn_module Z Linear).
  set (new_net := new_linear 2 2 : nn_module Z Linear).
  assert (Ho : map_Forall (λ _, well_formed) (state_dict old_net)).
  { intros name t. simpl. intros Ht.
    apply lookup_insert_Some in Ht as [[_ <-]|[_ Ht]]; [reflexivity |].
    apply lookup_singleton_Some in Ht as [_ <-]. reflexivity. }
  assert (Hn : map_Forall (λ _, well_formed) (state_dict new_net)).
  { intros name t. simpl. intros Ht.
    apply lookup_insert_Some in Ht as [[_ <-]|[_ Ht]]; [reflexivity |].
    apply lookup_singleton_Some in Ht as [_ <-]. reflexivity. }
  assert (Hsame : ∀ name t, state_dict old_net !! name = Some t →
            ∃ t', state_dict new_net !! name = Some t' ∧ shape t' = shape t).
  { intros name t. simpl. intros Ht.
    apply lookup_insert_Some in Ht as [[<- <-]|[Hne Ht]].
    - eexists. split; [apply lookup_insert_eq | reflexivity].
    - apply lookup_singleton_Some in Ht as [<- <-].
      eexists. split; [by rewrite lookup_insert_ne, lookup_singleton_eq | reflexivity]. }
  split; [exact Ho |]. split; [exact Hn |]. split; [exact Hsame |].
  exact (preserve_parameters_exact old_net new_net Ho Hn Hsame).
Defined.

(** C6 as stated fails: a module without parameters has all of them in any
    other module, and the transplant into a fresh linear layer returns the
    layer's own fresh weight and bias, which the old module never had. *)
Lemma preserve_parameters_exact_counterexample :
  ¬ ∀ (old_net new_net : nn_module Z Linear),
      map_Forall (λ _, well_formed) (state_dict old_net) →
      map_Forall (λ _, well_formed) (state_dict new_net) →
      (∀ name t, state_dict old_net !! name = Some t →
         ∃ t', state_dict new_net !! name = Some t' ∧ shape t' = shape t) →
      state_dict (preserve_parameters old_net new_net) = state_dict old_net.
Proof.
  intros Hclaim.
  pose (old_net := Module_ {| in_features := 1; out_features := 1 |} ∅
                   : nn_module Z Linear).
  pose (new_net := new_linear 1 1 : nn_module Z Linear).
  assert (Heq : state_dict (preserve_parameters old_net new_net) = state_dict old_net).
  { apply Hclaim.
    - intros name t Ht. simpl in Ht. by rewrite lookup_empty in Ht.
    - intros name t. simpl. intros Ht.
      apply lookup_insert_Some in Ht as [[_ <-]|[_ Ht]]; [reflexivity |].
      apply lookup_singleton_Some in Ht as [_ <-]. reflexivity.
    - intros name t Ht. simpl in Ht. by rewrite lookup_empty in Ht. }
  apply (f_equal (λ m : gmap string (tensor Z), m !! "weight")) in Heq.
  vm_compute in Heq. discriminate Heq.
Qed.

(** ** The initial population *)

Section population_properties.
Context {V : Type}.

(** A loop whose body appends one agent made from the loop variable. *)
Lemma for_in_append (make : Z → agent V) (body : Z → list (agent V) → result (list (agent V)))
    (idxs : list Z) (population : list (agent V)) :
  (∀ idx pop, body idx pop = Ok (pop ++ [make idx])%list) →
  for_in idxs body population = Ok (population ++ (make <$> idxs))%list.
Proof.
  intros Hbody. revert population.
  induction idxs as [|idx idxs IH]; intros population; simpl.
  - by rewrite app_nil_r.
  - rewrite Hbody. simpl. rewrite IH. by rewrite <- app_assoc.
Qed.

Lemma length_range (n : Z) : length (range n) = Z.to_nat n.
Proof. unfold range. by rewrite length_fmap, length_seq. Qed.

Lemma lookup_range (n : Z) (i : nat) (idx : Z) :
  range n !! i = Some idx → idx = Z.of_nat i.
Proof.
  unfold range. rewrite list_lookup_fmap. intros Hi.
  destruct (seq 0 (Z.to_nat n) !! i) as [k|] eqn:Hk; simplify_eq/=.
  apply lookup_seq in Hk as [-> _]. done.
Qed.

(** C9, as the code has it. For a supported algorithm, a population size
    that is not negative and hyperparameters that hold every key the
    algorithm's branch reads, [initialPopulation] returns a list of that
    many agents, the one at position [i] constructed with index [i]. *)
Theorem initialPopulation_indices (algo : string)
    (state_dim action_dim one_hot net_config : V) (INIT_HP : gmap string V)
    (population_size : Z) (device accelerator : V) :
  algo ∈ supported →
  0 <= population_size →
  (∀ key, key ∈ hyperparameters algo → is_Some (INIT_HP !! key)) →
  ∃ population,
    initialPopulation algo state_dim action_dim one_hot net_config INIT_HP
                      population_size device accelerator = Ok population
    ∧ Z.of_nat (length population) = population_size
    ∧ ∀ (i : nat) a, population !! i = Some a → agent_index a = Z.of_nat i.
Proof.
  intros Halgo Hsize Hkeys.
  assert (Hget : ∀ key, key ∈ hyperparameters algo →
                 ∃ v, getitem INIT_HP key = Ok v).
  { intros key Hkey. destruct (Hkeys key Hkey) as [v Hv].
    exists v. unfold getitem. by rewrite Hv. }
  assert (Hmade : ∃ make : Z → agent V,
            (∀ idx, agent_index (make idx) = idx)
            ∧ initialPopulation algo state_dim action_dim one_hot net_config INIT_HP
                population_size device accelerator
              = Ok (make <$> range population_size)).
  { unfold supported in Halgo. unfold initialPopulation.
    set_unfold in Halgo.
    destruct Halgo as [->|[->|[->|[->|[->|[->|[]]]]]]].
    all: repeat (case_decide; [try discriminate | try done]).
    all: repeat match goal with
         | |- context [getitem ?d ?k] =>
             lazymatch goal with
             | H : getitem d k = Ok _ |- _ => fail
             | _ => let v := fresh "v" in let Hv := fresh "Hv" in
                    destruct (Hget k) as [v Hv]; [vm_compute; repeat first [left | right] |]
             end
         end.
    all: eexists (λ idx, _); split;
      [| simpl; erewrite for_in_append;
         [reflexivity
         | intros idx pop;
           repeat match goal with
                  | H : getitem _ ?k = Ok _ |- context [getitem _ ?k] => rewrite H
                  end; simpl; reflexivity]].
    all: intros idx; reflexivity. }
  destruct Hmade as (make & Hindex & ->).
  eexists. split; [done |]. split.
  - rewrite length_fmap, length_range. lia.
  - intros i a. rewrite list_lookup_fmap. intros Hi.
    destruct (range population_size !! i) as [idx|] eqn:Hidx; simplify_eq/=.
    rewrite Hindex. by eapply lookup_range.
Qed.

(** C10. An algorithm name that is none of the six yields the empty list,
    whatever the population size, and raises nothing. *)
Theorem initialPopulation_unsupported (algo : string)
    (state_dim action_dim one_hot net_config : V) (INIT_HP : gmap string V)
    (population_size : Z) (device accelerator : V) :
  algo ∉ supported →
  initialPopulation algo state_dim action_dim one_hot net_config INIT_HP
                    population_size device accelerator = Ok [].
Proof.
  unfold supported. intros Halgo. set_unfold in Halgo.
  unfold initialPopulation.
  repeat (case_decide; [exfalso; apply Halgo; subst; tauto |]).
  done.
Qed.
End population_properties.

(** Three TD3 agents. *)
Lemma initialPopulation_indices_witness :
  "TD3" ∈ supported
  ∧ 0 <= 3
  ∧ (∀ key, key ∈ hyperparameters "TD3" → is_Some (sample_INIT_HP !! key))
  ∧ ∃ population,
      initialPopulation "TD3" 4 2 0 0 sample_INIT_HP 3 0 0 = Ok population
      ∧ Z.of_nat (length population) = 3
      ∧ ∀ (i : nat) a, population !! i = Some a → agent_index a = Z.of_nat i.
Proof.
  assert (Halgo : "TD3" ∈ supported) by (vm_compute; repeat first [left | right]).
  assert (Hsize : 0 <= 3) by lia.
  assert (Hkeys : ∀ key, key ∈ hyperparameters "TD3" → is_Some (sample_INIT_HP !! key)).
  { intros key Hkey.
    change (hyperparameters "TD3")
      with ["MAX_ACTION"; "BATCH_SIZE"; "LR"; "LEARN_STEP"; "GAMMA"; "TAU"; "POLICY_FREQ"]
      in Hkey.
    repeat (apply elem_of_cons in Hkey as [->|Hkey]; [by eexists |]).
    by apply elem_of_nil in Hkey. }
  split; [exact Halgo |]. split; [exact Hsize |]. split; [exact Hkeys |].
  exact (initialPopulation_indices "TD3" 4 2 0 0 sample_INIT_HP 3 0 0 Halgo Hsize Hkeys).
Defined.

(** PPO is not among the six. *)
Lemma initialPopulation_unsupported_witness :
("PPO" ∉ supported)
  ∧ initialPopulation "PPO" 4 2 0 0 sample_INIT_HP 3 0 0 = Ok [].
Proof.
  assert (Halgo : "PPO" ∉ supported).
  { unfold supported. intros Hin.
    repeat (apply elem_of_cons in Hin as [Hin|Hin]; [discriminate Hin |]).
    by apply elem_of_nil in Hin. }
  split; [exact Halgo |].
  exact (initialPopulation_unsupported "PPO" 4 2 0 0 sample_INIT_HP 3 0 0 Halgo).
Defined.

(** C9 as stated fails: with hyperparameters that lack a key the branch
    reads, the first agent is never made; the subscript raises
    [KeyError]. *)
Lemma initialPopulation_indices_counterexample :
  initialPopulation "DQN" 4 2 0 0 (∅ : gmap string Z) 1 0 0
  = Raise (KeyError "BATCH_SIZE")
  ∧ ¬ (∀ (algo : string) (INIT_HP : gmap string Z) (population_size : Z),
         algo ∈ supported → 0 <= population_size →
         ∃ population,
           initialPopulation algo 4 2 0 0 INIT_HP population_size 0 0 = Ok population
           ∧ Z.of_nat (length population) = population_size).
Proof.
  split; [vm_compute; reflexivity |].
  intros Hclaim.
  destruct (Hclaim "DQN" ∅ 1) as (population & Hpop & _).
  - vm_compute. left.
  - lia.
  - vm_compute in Hpop. discriminate Hpop.
Qed.

(** ** The final dense layer and the forward pass *)

Section rebuild_properties.
Context {G : Type} `{!Generator G} `{!Helpers} {T : Type} `{!Initializer T}.

Implicit Types (self : @EvolvableMultiInput G T) (mu : mutation).

(** [build_feature_extractor] assigns [mlp_name] at most. *)
Lemma build_feature_extractor_self (built : bool) self :
  (build_feature_extractor built self).2 = self
  ∨ ∃ n, (build_feature_extractor built self).2 = set_mlp_name n self.
Proof.
  unfold build_feature_extractor. destruct (vector_space_mlp self); [| by left].
  destruct (pop_name _ _) as [n d]. right. by exists (Some n).
Qed.

(** After [recreate_network] the final dense layer is the one for the
    feature extractors the call has just built; [num_outputs] and the
    latent dimension are as before. *)
Lemma recreate_network_dense self :
  dense_consistent (recreate_network self).2
  ∧ num_outputs (recreate_network self).2 = num_outputs self
  ∧ latent_dim (recreate_network self).2 = latent_dim self
  ∧ min_latent_dim (recreate_network self).2 = min_latent_dim self
  ∧ max_latent_dim (recreate_network self).2 = max_latent_dim self.
Proof.
  unfold recreate_network, dense_consistent, features_dim.
  destruct (build_feature_extractor true self) as [f s] eqn:Hb.
  pose proof (build_feature_extractor_self true self) as Hs.
  rewrite Hb in Hs. simpl in Hs.
  destruct Hs as [->|[n ->]]; simpl; done.
Qed.

(** The constructor builds the final dense layer for the extractors it has
    built. *)
Lemma init_dense (a : init_args) (unseeded : G) self :
  __init__ a unseeded = Ok self → dense_consistent self.
Proof.
  unfold __init__. intros Hinit.
  apply bind_Ok in Hinit as (_ & _ & Hinit).
  apply bind_Ok in Hinit as (_ & _ & Hinit).
  apply bind_Ok in Hinit as (_ & H3%assert_Ok & Hinit).
  apply bind_Ok in Hinit as (_ & _ & Hinit).
  apply bind_Ok in Hinit as (_ & _ & Hinit).
  destruct (arg_observation_space a); try discriminate H3.
  all: match type of Hinit with
       | context [build_feature_extractor ?b ?s] =>
           destruct (build_feature_extractor b s) as [f s'] eqn:Hb;
           pose proof (build_feature_extractor_self b s) as Hs;
           rewrite Hb in Hs; simpl in Hs
       end.
  all: destruct Hs as [->|[n ->]]; injection Hinit as <-; done.
Qed.

(** X6. Parts of C2 that hold. From a constructed module, after any sequence of
    latent mutations, each followed by [recreate_network], the final dense
    layer maps [calc_extracted_features_dim() + total_vector_dims * (1 -
    vector_space_mlp)] input features to [num_outputs] outputs, and
    [num_outputs] is the one the module was built with. *)
Lemma final_dense_after_mutations (a : init_args) (unseeded : G) self
    (mus : list mutation) :
  __init__ a unseeded = Ok self →
  let self' := (mutate_recreate_all mus self).2 in
  dense_consistent self' ∧ num_outputs self' = arg_num_outputs a.
Proof.
  intros Hinit.
  assert (Hn : num_outputs self = arg_num_outputs a).
  { clear -Hinit. unfold __init__ in Hinit.
    apply bind_Ok in Hinit as (_ & _ & Hinit).
    apply bind_Ok in Hinit as (_ & _ & Hinit).
    apply bind_Ok in Hinit as (_ & H3%assert_Ok & Hinit).
    apply bind_Ok in Hinit as (_ & _ & Hinit).
    apply bind_Ok in Hinit as (_ & _ & Hinit).
    destruct (arg_observation_space a); try discriminate H3.
    all: match type of Hinit with
         | context [build_feature_extractor ?b ?s] =>
             destruct (build_feature_extractor b s) as [f s'] eqn:Hb;
             pose proof (build_feature_extractor_self b s) as Hs;
             rewrite Hb in Hs; simpl in Hs
         end.
    all: destruct Hs as [->|[n ->]]; injection Hinit as <-; done. }
  apply init_dense in Hinit. rewrite <- Hn. clear Hn. revert self Hinit.
  induction mus as [|mu mus IH]; intros self Hd; simpl; [done |].
  pose proof (mutate_latent_dim mu self) as (_ & _ & Hout & _).
  destruct (mutate mu self) as [d self1]. simpl in Hout.
  pose proof (recreate_network_dense self1) as (Hd2 & Hout2 & _).
  destruct (recreate_network self1) as [[] self2]. simpl in *.
  specialize (IH self2 Hd2).
  destruct (mutate_recreate_all mus self2) as [ds self3]. simpl in *.
  destruct IH as [? ->]. split; [done | congruence].
Qed.
End rebuild_properties.

(** On the sample module, after two mutations and rebuilds, the forward
    pass of a batch of five observations gives five rows of [num_outputs]
    values. *)
Lemma forward_sample :
  let self := (mutate_recreate_all [AddLatentNode (Some 16); RemoveLatentNode None]
                 (sample_module 64 (Some 7))).2 in
  forward self (ODict [("image", OTensor [5; 3; 32; 32]); ("vector", OArray [5; 4])])
  = Ok [5; num_outputs self].
Proof. vm_compute. reflexivity. Qed.

(** C2, where the code breaks it. An observation space whose only subspace
    is a box of four dimensions: the box is a vector space, its extractor
    is [nn.Flatten], and no extractor lies outside the vector spaces, so
    that [extracted_features_dim] is 0. After construction and after a
    mutation with rebuild the final dense layer takes the 120 flattened
    features, as the formula says; but [forward] runs the extractors only
    when [extracted_features_dim > 0], hands the unflattened batch to the
    final dense layer, and raises. *)
Theorem forward_skips_flatten :
  ∃ self : EvolvableMultiInput,
    __init__ (default_args (Dict [("lidar", Box [2; 3; 4; 5])]) 10) 0 = Ok self
    ∧ let self' := (mutate_recreate_all [AddLatentNode (Some 16)] self).2 in
      let x := ODict [("lidar", OTensor [1; 2; 3; 4; 5])] in
      keys (arch (feature_net self')) = ["lidar"]
      ∧ extracted_features_dim self' = 0
      ∧ features_dim self' = 120
      ∧ arch (final_dense self') = {| in_features := 120; out_features := 10 |}
      ∧ forward self x
        = Raise (RuntimeError "mat1 and mat2 shapes cannot be multiplied")
      ∧ forward self' x
        = Raise (RuntimeError "mat1 and mat2 shapes cannot be multiplied").
Proof.
  destruct (__init__ (default_args (Dict [("lidar", Box [2; 3; 4; 5])]) 10) 0)
    as [self|e] eqn:Hinit; [| vm_compute in Hinit; discriminate Hinit].
  exists self. split; [reflexivity |].
  vm_compute in Hinit. injection Hinit as <-.
  vm_compute. repeat split; reflexivity.
Qed.

(** A nested dictionary space fails earlier: the entry of the observation
    is a dictionary, of which [torch.tensor] makes no tensor. *)
Lemma forward_nested_raises :
  ∃ self : EvolvableMultiInput,
    __init__ (default_args (Dict [("inner", Dict [("a", Box [4])])]) 10) 0 = Ok self
    ∧ forward self (ODict [("inner", ODict [("a", OTensor [1; 4])])])
      = Raise (RuntimeError "Could not infer dtype of dict").
Proof.
  destruct (__init__ (default_args (Dict [("inner", Dict [("a", Box [4])])]) 10) 0)
    as [self|e] eqn:Hinit; [| vm_compute in Hinit; discriminate Hinit].
  exists self. split; [reflexivity |].
  vm_compute in Hinit. injection Hinit as <-.
  vm_compute. reflexivity.
Qed.

(** * Further properties of the code *)

(** ** Latent mutations at and beyond the bounds *)

Section latent_extras.
Context {G : Type} `{!Generator G} `{!Helpers} {T : Type} `{!Initializer T}.

Implicit Types (self : @EvolvableMultiInput G T) (mu : mutation).

Lemma count_of_nonneg mu self :
  (∀ n, requested mu = Some n → 0 <= n) → 0 <= count_of mu self.
Proof.
  intros Hpos. unfold count_of. destruct (requested mu) as [n|]; [by apply Hpos |].
  pose proof (choice_elem [8; 16; 32] (rng self)) as Hin.
  assert (Hne : [8; 16; 32] ≠ []) by done. specialize (Hin Hne).
  set_unfold in Hin. lia.
Qed.

(** X1. The guards are strict: a latent dimension that starts strictly
    below the maximum never reaches it, and one that starts strictly above
    the minimum never comes down to it, whatever calls with counts that are
    not negative follow. The bounds the constructor accepts are out of the
    reach of the mutations. *)
Theorem latent_dim_stays_strictly_inside (mus : list mutation) self :
  Forall (λ mu, ∀ n, requested mu = Some n → 0 <= n) mus →
  let self' := (mutate_all mus self).2 in
  (latent_dim self < max_latent_dim self → latent_dim self' < max_latent_dim self')
  ∧ (min_latent_dim self < latent_dim self → min_latent_dim self' < latent_dim self').
Proof.
  intros Hpos. revert self.
  induction Hpos as [|mu mus Hmu _ IH]; intros self; simpl; [done |].
  pose proof (mutate_latent_dim mu self) as (Hmin & Hmax & _ & Hl).
  pose proof (count_of_nonneg mu self Hmu) as Hc.
  destruct (mutate mu self) as [d self1]. simpl in *.
  specialize (IH self1).
  destruct (mutate_all mus self1) as [ds self2]. simpl in *.
  destruct IH as [IHmax IHmin].
  split; intros Hlt.
  - apply IHmax. rewrite Hmax, Hl. destruct mu; case_bool_decide; lia.
  - apply IHmin. rewrite Hmin, Hl. destruct mu; case_bool_decide; lia.
Qed.

(** X2. Each guard looks at one bound only. A negative count given to
    [add_latent_node] is subtracted whenever the result is below the
    maximum, a negative count given to [remove_latent_node] is added
    whenever the result is above the minimum; so from every module within
    its bounds one call takes the latent dimension below the minimum and
    one call takes it above the maximum. *)
Theorem negative_count_escapes_bounds self :
  min_latent_dim self <= latent_dim self <= max_latent_dim self →
  (∀ n, n < 0 → latent_dim (add_latent_node (Some n) self).2 = latent_dim self + n)
  ∧ (∀ n, n < 0 → latent_dim (remove_latent_node (Some n) self).2 = latent_dim self - n)
  ∧ (∃ n, latent_dim (add_latent_node (Some n) self).2 < min_latent_dim self)
  ∧ (∃ n, latent_dim (remove_latent_node (Some n) self).2 > max_latent_dim self).
Proof.
  intros Hb.
  assert (Hadd : ∀ n, n < 0 →
            latent_dim (add_latent_node (Some n) self).2 = latent_dim self + n).
  { intros n Hn. unfold add_latent_node. by rewrite bool_decide_eq_true_2 by lia. }
  assert (Hrem : ∀ n, n < 0 →
            latent_dim (remove_latent_node (Some n) self).2 = latent_dim self - n).
  { intros n Hn. unfold remove_latent_node. by rewrite bool_decide_eq_true_2 by lia. }
  split_and!; [done | done | |].
  - exists (min_latent_dim self - latent_dim self - 1). rewrite Hadd by lia. lia.
  - exists (latent_dim self - max_latent_dim self - 1). rewrite Hrem by lia. lia.
Qed.

(** X3. Adding and then removing the same count. When the addition goes
    through, the removal brings the module back exactly if the latent
    dimension was strictly above the minimum to begin with; from the
    minimum itself the removal is stopped and the module stays grown. *)
Theorem add_then_remove self (n : Z) :
  latent_dim self + n < max_latent_dim self →
  let grown := (add_latent_node (Some n) self).2 in
  (min_latent_dim self < latent_dim self →
     (remove_latent_node (Some n) grown).2 = self)
  ∧ (latent_dim self = min_latent_dim self →
     (remove_latent_node (Some n) grown).2 = grown
     ∧ latent_dim grown = latent_dim self + n).
Proof.
  intros Hadd. cbv zeta. rewrite add_latent_node_applies by done. cbn [snd].
  split.
  - intros Hmin. unfold remove_latent_node.
    rewrite bool_decide_eq_true_2 by (simpl; lia). simpl.
    replace (latent_dim self + n - n) with (latent_dim self) by lia.
    by destruct self.
  - intros Hmin. unfold remove_latent_node.
    rewrite bool_decide_eq_false_2 by (simpl; lia). done.
Qed.
End latent_extras.

(** A drawn count and three requested ones, zero among them. *)
Lemma latent_dim_stays_strictly_inside_witness :
  let self := sample_module 64 (Some 7) in
  let mus := [AddLatentNode (Some 63); AddLatentNode (Some 0);
              RemoveLatentNode None; RemoveLatentNode (Some 200)] in
  let self' := (mutate_all mus self).2 in
  Forall (λ mu, ∀ n, requested mu = Some n → 0 <= n) mus
  ∧ (latent_dim self < max_latent_dim self → latent_dim self' < max_latent_dim self')
  ∧ (min_latent_dim self < latent_dim self → min_latent_dim self' < latent_dim self').
Proof.
  assert (Hpos : Forall (λ mu, ∀ n, requested mu = Some n → 0 <= n)
                   [AddLatentNode (Some 63); AddLatentNode (Some 0);
                    RemoveLatentNode None; RemoveLatentNode (Some 200)]).
  { repeat constructor; simpl; intros n Hn; try discriminate Hn;
      injection Hn as <-; lia. }
  split; [exact Hpos |].
  exact (latent_dim_stays_strictly_inside _ (sample_module 64 (Some 7)) Hpos).
Defined.

(** The sample module, within its bounds. *)
Lemma negative_count_escapes_bounds_witness :
  let self := sample_module 64 None in
  min_latent_dim self <= latent_dim self <= max_latent_dim self
  ∧ (∀ n, n < 0 → latent_dim (add_latent_node (Some n) self).2 = latent_dim self + n)
  ∧ (∀ n, n < 0 → latent_dim (remove_latent_node (Some n) self).2 = latent_dim self - n)
  ∧ (∃ n, latent_dim (add_latent_node (Some n) self).2 < min_latent_dim self)
  ∧ (∃ n, latent_dim (remove_latent_node (Some n) self).2 > max_latent_dim self).
Proof.
  assert (Hb : min_latent_dim (sample_module 64 None)
               <= latent_dim (sample_module 64 None)
               <= max_latent_dim (sample_module 64 None)).
  { vm_compute. split; discriminate. }
  split; [exact Hb |].
  exact (negative_count_escapes_bounds (sample_module 64 None) Hb).
Defined.

(** Sixteen nodes on the sample module and off again. *)
Lemma add_then_remove_witness :
  let self := sample_module 64 None in
  let grown := (add_latent_node (Some 16) self).2 in
  latent_dim self + 16 < max_latent_dim self
  ∧ (min_latent_dim self < latent_dim self →
       (remove_latent_node (Some 16) grown).2 = self)
  ∧ (latent_dim self = min_latent_dim self →
       (remove_latent_node (Some 16) grown).2 = grown
       ∧ latent_dim grown = latent_dim self + 16).
Proof.
  assert (Hadd : latent_dim (sample_module 64 None) + 16
                 < max_latent_dim (sample_module 64 None)).
  { vm_compute. reflexivity. }
  split; [exact Hadd |].
  exact (add_then_remove (sample_module 64 None) 16 Hadd).
Defined.

(** ** What the constructor accepts and what it builds *)

Section construction_extras.
Context {G : Type} `{!Generator G} `{!Helpers} {T : Type} `{!Initializer T}.

Implicit Types (self : @EvolvableMultiInput G T) (a : init_args).

(** The attributes of a constructed module, from the arguments. [pre] is
    the module as it is when the feature extractors are built. *)
Lemma init_attributes a (unseeded : G) self :
  __init__ a unseeded = Ok self →
  accepted a = true
  ∧ num_outputs self = arg_num_outputs a
  ∧ latent_dim self = arg_latent_dim a
  ∧ min_latent_dim self = arg_min_latent_dim a
  ∧ max_latent_dim self = arg_max_latent_dim a
  ∧ vector_space_mlp self = arg_vector_space_mlp a
  ∧ observation_space self
    = match arg_observation_space a with
      | Tuple spaces => tuple_to_dict_space spaces
      | Dict spaces => spaces
      | _ => []
      end
  ∧ vector_spaces self = filter (λ kv, vector_space_check kv.2) (observation_space self)
  ∧ total_vector_dims self = get_total_flatdim (vector_spaces self)
  ∧ output_layernorm self
    = arg_output_layernorm a
      || (arg_vector_space_mlp a
          && truthy (get (or_default (arg_mlp_config a) DefaultMlpConfig)
                         "layer_norm" (PBool true)))
  ∧ final_layernorm self
    = (if output_layernorm self
       then Some {| normalized_shape := num_outputs self |} else None)
  ∧ extracted_features_dim self = calc_extracted_features_dim self
  ∧ final_dense self = new_linear (features_dim self) (num_outputs self)
  ∧ ∃ pre : @EvolvableMultiInput G T,
      feature_net self = (build_feature_extractor false pre).1
      ∧ observation_space pre = observation_space self
      ∧ vector_space_mlp pre = vector_space_mlp self
      ∧ latent_dim pre = latent_dim self
      ∧ device pre = device self
      ∧ total_vector_dims pre = total_vector_dims self.
Proof.
  unfold __init__, accepted. intros Hinit.
  apply bind_Ok in Hinit as (_ & H1%assert_Ok & Hinit).
  apply bind_Ok in Hinit as (_ & H2%assert_Ok & Hinit).
  apply bind_Ok in Hinit as (_ & H3%assert_Ok & Hinit).
  apply bind_Ok in Hinit as (_ & H4%assert_Ok & Hinit).
  apply bind_Ok in Hinit as (_ & H5%assert_Ok & Hinit).
  rewrite H1, H2, H3, H4, H5.
  destruct (arg_observation_space a); try discriminate H3.
  all: match type of Hinit with
       | context [build_feature_extractor ?b ?s] =>
           destruct (build_feature_extractor b s) as [f s'] eqn:Hb;
           pose proof (build_feature_extractor_self b s) as Hs;
           rewrite Hb in Hs; simpl in Hs;
           pose proof (f_equal fst Hb) as Hf; simpl in Hf
       end.
  all: destruct Hs as [->|[n ->]]; injection Hinit as <-; simpl.
  all: split_and!; try done.
  all: eexists; rewrite Hf; split_and!; done.
Qed.


(** X5. The output layer normalisation. Without the vector MLP it is the
    argument [output_layernorm]. With the vector MLP and a configuration
    that has no ["layer_norm"] entry, the default configuration among
    them, it is on whatever the argument says; and the normalisation layer
    exists exactly when the attribute is set. *)
Theorem init_output_layernorm a (unseeded : G) self :
  __init__ a unseeded = Ok self →
  (arg_vector_space_mlp a = false → output_layernorm self = arg_output_layernorm a)
  ∧ (arg_vector_space_mlp a = true →
     or_default (arg_mlp_config a) DefaultMlpConfig !! "layer_norm" = None →
     output_layernorm self = true
     ∧ final_layernorm self = Some {| normalized_shape := arg_num_outputs a |})
  ∧ (is_Some (final_layernorm self) ↔ output_layernorm self = true).
Proof.
  intros Hinit.
  apply init_attributes in Hinit
    as (_ & Hn & _ & _ & _ & _ & _ & _ & _ & Hln & Hfl & _).
  split_and!.
  - intros Hv. rewrite Hln, Hv. simpl. by rewrite orb_false_r.
  - intros Hv Hcfg.
    assert (Hon : output_layernorm self = true).
    { rewrite Hln, Hv. unfold get. rewrite Hcfg. simpl. by rewrite orb_true_r. }
    split; [done |]. by rewrite Hfl, Hon, Hn.
  - rewrite Hfl. destruct (output_layernorm self); split; intros Hx;
      (done || by inversion Hx || by eexists).
Qed.
End construction_extras.

(** A module with the vector MLP and the default configurations. *)
Lemma init_output_layernorm_witness :
  let a := {| arg_observation_space := Dict [("image", Box [3; 8; 8]); ("vector", Box [4])];
              arg_num_outputs := 10; arg_latent_dim := 32;
              arg_vector_space_mlp := true; arg_cnn_config := None;
              arg_mlp_config := None; arg_init_dicts := None;
              arg_output_activation := None; arg_output_layernorm := false;
              arg_min_latent_dim := 8; arg_max_latent_dim := 128;
              arg_device := "cpu"; arg_name := "multi_input";
              arg_random_seed := None |} in
  ∃ self : EvolvableMultiInput,
    __init__ a 0 = Ok self
    ∧ arg_vector_space_mlp a = true
    ∧ or_default (arg_mlp_config a) DefaultMlpConfig !! "layer_norm" = None
    ∧ output_layernorm self = true
    ∧ final_layernorm self = Some {| normalized_shape := arg_num_outputs a |}.
Proof.
  intros a.
  destruct (__init__ a 0) as [self|e] eqn:Hinit;
    [| vm_compute in Hinit; discriminate Hinit].
  assert (Hcfg : or_default (arg_mlp_config a) DefaultMlpConfig !! "layer_norm" = None).
  { vm_compute. reflexivity. }
  exists self. split; [reflexivity |]. split; [reflexivity |]. split; [exact Hcfg |].
  exact (proj1 (proj2 (init_output_layernorm a 0 self Hinit)) eq_refl Hcfg).
Defined.


(** The sample module, mutated and rebuilt three times. *)
Lemma final_dense_after_mutations_witness :
  let mus := [AddLatentNode (Some 16); RemoveLatentNode None; AddLatentNode None] in
  ∃ self : EvolvableMultiInput,
    __init__ (sample_args 64 (Some 3)) 0 = Ok self
    ∧ dense_consistent (mutate_recreate_all mus self).2
    ∧ num_outputs (mutate_recreate_all mus self).2 = 10.
Proof.
  destruct (__init__ (sample_args 64 (Some 3)) 0) as [self|e] eqn:Hinit;
    [| vm_compute in Hinit; discriminate Hinit].
  exists self. split; [reflexivity |].
  exact (final_dense_after_mutations (sample_args 64 (Some 3)) 0 self _ Hinit).
Defined.

(** ** The feature extractors *)

Section extractor_extras.
Context {G : Type} `{!Generator G} `{!Helpers} {T : Type} `{!Initializer T}.

Implicit Types (self : @EvolvableMultiInput G T).

Lemma lookup_key_setitem {V} (key k : string) (v : V) (d : list (string * V)) :
  lookup_key k (setitem key v d)
  = if decide (k = key) then Some v else lookup_key k d.
Proof.
  induction d as [|[k' w] d IH]; simpl.
  - repeat case_decide; congruence.
  - repeat (case_decide; simpl); congruence.
Qed.

Lemma keys_setitem {V} (key k : string) (v : V) (d : list (string * V)) :
  k ∈ keys (setitem key v d) ↔ k = key ∨ k ∈ keys d.
Proof.
  unfold keys. induction d as [|[k' w] d IH]; simpl.
  - rewrite list_elem_of_singleton. split; [by left | intros [?|Hnil]; [done |]].
    by apply elem_of_nil in Hnil.
  - case_decide; simpl; rewrite !elem_of_cons; [subst; tauto |].
    rewrite IH. tauto.
Qed.

Lemma lookup_key_Some_keys {V} (k : string) (v : V) (d : list (string * V)) :
  lookup_key k d = Some v → k ∈ keys d.
Proof.
  unfold keys. induction d as [|[k' w] d IH]; simpl; [done |].
  case_decide; [subst; intros _; left | intros Hd; right; auto].
Qed.

(** What [get_inner_init_dict] returns always names the current latent
    dimension and device. *)
Lemma get_inner_init_dict_lookup (built : bool) self (key : string) (dflt : ModuleType) :
  get_inner_init_dict built self key dflt !! "num_outputs" = Some (PInt (latent_dim self))
  ∧ get_inner_init_dict built self key dflt !! "device" = Some (PStr (device self)).
Proof.
  unfold get_inner_init_dict.
  destruct (init_dicts built self !! key) as [d|].
  - by rewrite lookup_insert_eq, lookup_insert_ne, lookup_insert_eq.
  - destruct dflt; match goal with
                   | |- context [match ?c !! key with _ => _ end] =>
                       destruct (c !! key) as [[]|]
                   end;
      by rewrite lookup_insert_eq, lookup_insert_ne, lookup_insert_eq.
Qed.

Lemma pop_name_built_for (built : bool) self (key fallback : string) (dflt : ModuleType) :
  let init_dict := (pop_name (get_inner_init_dict built self key dflt) fallback).2 in
  init_dict !! "num_outputs" = Some (PInt (latent_dim self))
  ∧ init_dict !! "device" = Some (PStr (device self))
  ∧ init_dict !! "name" = None.
Proof.
  destruct (get_inner_init_dict_lookup built self key dflt) as [Hn Hd].
  unfold pop_name. simpl.
  rewrite (lookup_delete_ne _ "name" "num_outputs") by done.
  rewrite (lookup_delete_ne _ "name" "device") by done.
  by rewrite lookup_delete_eq.
Qed.

Lemma feature_extractor_built_for (built : bool) self (key : string) (sp : space) e :
  feature_extractor built self key sp = Some e → built_for self e.
Proof.
  unfold feature_extractor, built_for. intros He kwargs Hk.
  repeat match type of He with
         | (if ?c then _ else _) = _ => destruct c
         end.
  - discriminate He.
  - pose proof (pop_name_built_for built self key key MULTI_INPUT) as Hp.
    destruct (pop_name _ _) as [name init_dict].
    injection He as <-. injection Hk as <-. exact Hp.
  - pose proof (pop_name_built_for built self key key CNN) as Hp.
    destruct (pop_name _ _) as [name init_dict].
    injection He as <-. injection Hk as <-. exact Hp.
  - injection He as <-. discriminate Hk.
Qed.

(** X7. Every evolvable extractor that [build_feature_extractor] makes is
    built with [num_outputs] equal to the latent dimension the module has
    at that moment and with the module's device, whichever configuration
    its other arguments come from; the name is passed on its own. *)
Theorem built_extractors_follow_latent_dim (built : bool) self (key : string)
    (e : encoder) (kwargs : config) :
  lookup_key key (arch (build_feature_extractor built self).1) = Some e →
  encoder_kwargs e = Some kwargs →
  kwargs !! "num_outputs" = Some (PInt (latent_dim self))
  ∧ kwargs !! "device" = Some (PStr (device self))
  ∧ kwargs !! "name" = None.
Proof.
  intros Hlook Hk.
  assert (Hfold : ∀ (l : list (string * space)) (acc : list (string * encoder)),
            (∀ k e', lookup_key k acc = Some e' → built_for self e') →
            ∀ k e', lookup_key k
                      (foldl (λ feature_net '(key, sp),
                                match feature_extractor built self key sp with
                                | Some e => setitem key e feature_net
                                | None => feature_net
                                end) acc l) = Some e' →
                    built_for self e').
  { induction l as [|[k0 sp] l IH]; intros acc Hacc k e' He'; simpl in He';
      [by eapply Hacc |].
    eapply IH; [| exact He'].
    intros k1 e1 H1.
    destruct (feature_extractor built self k0 sp) as [e0|] eqn:He0;
      [| by eapply Hacc].
    rewrite lookup_key_setitem in H1. case_decide; [| by eapply Hacc].
    injection H1 as <-. by eapply feature_extractor_built_for. }
  assert (Hall : ∀ k e', lookup_key k (arch (build_feature_extractor built self).1)
                         = Some e' → built_for self e').
  { unfold build_feature_extractor.
    destruct (vector_space_mlp self).
    - destruct (pop_name _ _) as [name init_dict] eqn:Hpop. simpl.
      intros k e' He'. rewrite lookup_key_setitem in He'. case_decide.
      + injection He' as <-. intros kw Hkw. injection Hkw as <-.
        pose proof (pop_name_built_for built self "vector_mlp" "vector_mlp" MLP) as Hp.
        rewrite Hpop in Hp. exact Hp.
      + eapply Hfold; [| exact He']. intros ?? Hnil. discriminate Hnil.
    - simpl. intros k e' He'. eapply Hfold; [| exact He'].
      intros ?? Hnil. discriminate Hnil. }
  exact (Hall key e Hlook kwargs Hk).
Qed.

(** The keys of the extractors built for the subspaces. *)
Lemma extractor_keys_subspaces (built : bool) self (l : list (string * space))
    (acc : list (string * encoder)) (k : string) :
  k ∈ keys (foldl (λ feature_net '(key, sp),
                     match feature_extractor built self key sp with
                     | Some e => setitem key e feature_net
                     | None => feature_net
                     end) acc l) →
  k ∈ keys acc
  ∨ ∃ sp, (k, sp) ∈ l ∧ ∀ shape, sp = Box shape → (1 < length shape)%nat.
Proof.
  revert acc. induction l as [|[k0 sp] l IH]; intros acc Hk; simpl in Hk; [by left |].
  apply IH in Hk as [Hk|(sp' & Hin & Hsp)].
  - destruct (feature_extractor built self k0 sp) as [e0|] eqn:He0; [| by left].
    apply keys_setitem in Hk as [->|Hk]; [| by left].
    right. exists sp. split; [left |].
    intros shape ->. unfold feature_extractor in He0.
    case_bool_decide; [discriminate He0 | lia].
  - right. exists sp'. split; [by right | done].
Qed.

(** X8. The keys of the feature extractors. A key is that of a subspace
    which is not a box of fewer than two dimensions, or it is the name of
    the vector MLP. With [vector_space_mlp] the MLP takes
    [total_vector_dims] inputs and is the extractor under its name, also
    when a subspace has that name as key; without, the method assigns
    nothing to the module. *)
Theorem built_extractor_keys (built : bool) self :
  let fn := (build_feature_extractor built self).1 in
  let self' := (build_feature_extractor built self).2 in
  (∀ key, key ∈ keys (arch fn) →
     (∃ sp, (key, sp) ∈ observation_space self
            ∧ ∀ shape, sp = Box shape → (1 < length shape)%nat)
     ∨ (vector_space_mlp self = true ∧ mlp_name self' = Some key))
  ∧ (vector_space_mlp self = true →
     ∃ name kwargs,
       mlp_name self' = Some name
       ∧ lookup_key name (arch fn)
         = Some (EvolvableMLP (total_vector_dims self) name kwargs))
  ∧ (vector_space_mlp self = false → self' = self).
Proof.
  unfold build_feature_extractor.
  destruct (vector_space_mlp self) eqn:Hv.
  - destruct (pop_name _ _) as [name init_dict]. simpl. split_and!.
    + intros key Hkey. apply keys_setitem in Hkey as [->|Hkey]; [by right |].
      apply extractor_keys_subspaces in Hkey as [Hnil|Hsp]; [| by left].
      unfold keys in Hnil. simpl in Hnil. by apply elem_of_nil in Hnil.
    + intros _. exists name, init_dict. split; [done |].
      rewrite lookup_key_setitem. by rewrite decide_True.
    + intros Hf. discriminate Hf.
  - simpl. split_and!.
    + intros key Hkey.
      apply extractor_keys_subspaces in Hkey as [Hnil|Hsp]; [| by left].
      unfold keys in Hnil. simpl in Hnil. by apply elem_of_nil in Hnil.
    + intros Hf. discriminate Hf.
    + done.
Qed.

Lemma sum_constant (c : Z) {A} (l : list A) :
  foldr Z.add 0 ((λ _, c) <$> l) = c * Z.of_nat (length l).
Proof.
  induction l as [|x l IH]; [simpl; lia |].
  rewrite fmap_cons. cbn [foldr length]. rewrite IH. lia.
Qed.

(** X9. The number of extracted features is the latent dimension times the
    number of extractors whose key is not that of a vector space; with a
    positive latent dimension it is positive exactly when there is such an
    extractor. *)
Theorem extracted_features_count self :
  let outside :=
    filter (λ name, name ∉ keys (vector_spaces self)) (keys (arch (feature_net self))) in
  calc_extracted_features_dim self = latent_dim self * Z.of_nat (length outside)
  ∧ (0 < latent_dim self →
     (0 < calc_extracted_features_dim self
      ↔ ∃ name, name ∈ keys (arch (feature_net self))
                ∧ name ∉ keys (vector_spaces self))).
Proof.
  cbv zeta. unfold calc_extracted_features_dim.
  rewrite (sum_constant (latent_dim self)).
  split; [done |]. intros Hpos.
  set (outside := filter _ _).
  assert (Hiff : (∃ name, name ∈ keys (arch (feature_net self))
                          ∧ name ∉ keys (vector_spaces self))
                 ↔ outside ≠ []).
  { split.
    - intros (name & Hin & Hout) Hnil.
      assert (Hx : name ∈ outside) by (apply list_elem_of_filter; done).
      rewrite Hnil in Hx. by apply elem_of_nil in Hx.
    - intros Hne. destruct outside as [|name rest] eqn:Ho; [done |].
      assert (Hx : name ∈ outside) by (rewrite Ho; left).
      apply list_elem_of_filter in Hx as [Hout Hin]. by exists name. }
  rewrite Hiff. destruct outside as [|name rest]; simpl; split; intros Hx;
    (done || lia || nia).
Qed.

(** X10. [recreate_network] assigns the feature extractors, the final dense
    layer and the name of the vector MLP, and nothing else. In particular
    the attribute [extracted_features_dim], which [forward] reads, keeps
    the value the constructor gave it through every mutation and rebuild. *)
Theorem rebuild_keeps_attributes (mus : list mutation) self :
  (∃ mlp fn fd,
     (recreate_network self).2
     = set_final_dense fd (set_feature_net fn (set_mlp_name mlp self)))
  ∧ let self' := (mutate_recreate_all mus self).2 in
    extracted_features_dim self' = extracted_features_dim self
    ∧ observation_space self' = observation_space self
    ∧ vector_spaces self' = vector_spaces self
    ∧ total_vector_dims self' = total_vector_dims self
    ∧ vector_space_mlp self' = vector_space_mlp self
    ∧ output_layernorm self' = output_layernorm self
    ∧ final_layernorm self' = final_layernorm self.
Proof.
  assert (Hre : ∀ s : @EvolvableMultiInput G T, ∃ mlp fn fd,
            (recreate_network s).2
            = set_final_dense fd (set_feature_net fn (set_mlp_name mlp s))).
  { intros s. unfold recreate_network.
    destruct (build_feature_extractor true s) as [f s'] eqn:Hb.
    pose proof (build_feature_extractor_self true s) as Hs.
    rewrite Hb in Hs. simpl in Hs. destruct Hs as [->|[n ->]]; simpl.
    - exists (mlp_name s). eexists _, _. by destruct s.
    - exists n. by eexists _, _. }
  split; [apply Hre |].
  pose (kept := λ s : @EvolvableMultiInput G T,
          (extracted_features_dim s, observation_space s, vector_spaces s,
           total_vector_dims s, vector_space_mlp s, output_layernorm s,
           final_layernorm s)).
  assert (Hmu : ∀ mu s, kept (mutate mu s).2 = kept s).
  { intros mu s. destruct mu as [[n|]|[n|]]; simpl;
      unfold add_latent_node, remove_latent_node, rng_choice;
      try destruct (choice [8; 16; 32] (rng s)) as [k g]; simpl;
      case_bool_decide; reflexivity. }
  assert (Hrec : ∀ s, kept (recreate_network s).2 = kept s).
  { intros s. destruct (Hre s) as (mlp & fn & fd & ->). reflexivity. }
  assert (Hall : ∀ l s, kept (mutate_recreate_all l s).2 = kept s).
  { induction l as [|mu l IH]; intros s; simpl; [done |].
    pose proof (Hmu mu s) as H1.
    destruct (mutate mu s) as [d s1]. simpl in H1.
    pose proof (Hrec s1) as H2.
    destruct (recreate_network s1) as [[] s2]. simpl in H2.
    pose proof (IH s2) as H3.
    destruct (mutate_recreate_all l s2) as [ds s3]. simpl in *.
    congruence. }
  specialize (Hall mus self). unfold kept in Hall. cbv zeta.
  injection Hall as -> -> -> -> -> -> ->. done.
Qed.

(** X11. The two functions that prepare an MLP configuration for use as an
    encoder compute the same dictionary; it has output vanishing off, the
    output layer norm of the configuration's ["layer_norm"] (on by
    default) and the output activation of its ["activation"] (ReLU by
    default); every other entry is kept, and preparing a prepared
    configuration changes nothing. *)
Theorem mlp_config_prepared (c : config) :
  _reformat_mlp_config c = _modify_mlp_config c
  ∧ _modify_mlp_config c !! "output_vanish" = Some (PBool false)
  ∧ _modify_mlp_config c !! "output_layernorm"
    = Some (default (PBool true) (c !! "layer_norm"))
  ∧ _modify_mlp_config c !! "output_activation"
    = Some (default (PStr "ReLU") (c !! "activation"))
  ∧ (∀ key, key ∉ ["output_vanish"; "output_layernorm"; "output_activation"] →
       _modify_mlp_config c !! key = c !! key)
  ∧ _modify_mlp_config (_modify_mlp_config c) = _modify_mlp_config c.
Proof.
  assert (Hlook : ∀ (c0 : config) key,
            _modify_mlp_config c0 !! key
            = if decide (key = "output_activation")
              then Some (default (PStr "ReLU") (c0 !! "activation"))
              else if decide (key = "output_layernorm")
                   then Some (default (PBool true) (c0 !! "layer_norm"))
                   else if decide (key = "output_vanish")
                        then Some (PBool false) else c0 !! key).
  { intros c0 key. unfold _modify_mlp_config, get.
    rewrite !lookup_insert.
    repeat (case_decide; simplify_eq/=); try done. }
  split_and!.
  - done.
  - by rewrite Hlook.
  - by rewrite Hlook.
  - by rewrite Hlook.
  - intros key Hkey. rewrite Hlook.
    repeat (case_decide; [subst; exfalso; apply Hkey; set_solver |]). done.
  - apply map_eq. intros key. rewrite !Hlook.
    repeat (case_decide; simplify_eq/=); done.
Qed.
End extractor_extras.

(** Every evolvable extractor of the sample module, rebuilt at latent
    dimension 80. *)
Lemma built_extractors_follow_latent_dim_witness :
  let self := set_latent_dim 80 (sample_module 64 (Some 3)) in
  ∃ e kwargs,
    lookup_key "image" (arch (build_feature_extractor true self).1) = Some e
    ∧ encoder_kwargs e = Some kwargs
    ∧ kwargs !! "num_outputs" = Some (PInt 80)
    ∧ kwargs !! "device" = Some (PStr "cpu")
    ∧ kwargs !! "name" = None.
Proof.
  intros self.
  destruct (lookup_key "image" (arch (build_feature_extractor true self).1))
    as [e|] eqn:He; [| vm_compute in He; discriminate He].
  destruct (encoder_kwargs e) as [kwargs|] eqn:Hk.
  - exists e, kwargs. split; [reflexivity |]. split; [exact Hk |].
    exact (built_extractors_follow_latent_dim true self "image" e kwargs He Hk).
  - vm_compute in He. injection He as <-. discriminate Hk.
Defined.

(** ** The population *)

Section population_extras.
Context {V : Type}.

(** A loop whose body raises, whatever the state, leaves the state as it
    was if it returns. *)
Lemma for_in_raises {A S} (xs : list A) (body : A → S → result S) (s p : S) (e : exn) :
  (∀ x s', body x s' = Raise e) →
  (xs ≠ [] → for_in xs body s = Raise e)
  ∧ (for_in xs body s = Ok p → xs = [] ∧ p = s).
Proof.
  intros Hbody. destruct xs as [|x xs]; simpl.
  - split; [done |]. intros Hp. by injection Hp as <-.
  - rewrite Hbody. simpl. split; [done |]. intros Hp. discriminate Hp.
Qed.

Lemma for_in_raise {A S} (xs : list A) (body : A → S → result S) (s : S) (e : exn) :
  (∀ x s', body x s' = Raise e) → xs ≠ [] → for_in xs body s = Raise e.
Proof. intros Hbody Hxs. destruct xs as [|x xs]; [done |]. simpl. by rewrite Hbody. Qed.

Lemma range_nonpositive (n : Z) : n <= 0 → range n = [].
Proof. intros Hn. unfold range. by replace (Z.to_nat n) with 0%nat by lia. Qed.

Lemma range_positive (n : Z) : 0 < n → range n ≠ [].
Proof.
  intros Hn Hnil. apply (f_equal length) in Hnil.
  rewrite length_range in Hnil. simpl in Hnil. lia.
Qed.

(** X12. The agents [initialPopulation] returns are identical but for
    their index: all of the class the algorithm names, and each the
    constructor call of any other with its own position as index. *)
Theorem initialPopulation_identical_agents (algo : string)
    (state_dim action_dim one_hot net_config : V) (INIT_HP : gmap string V)
    (population_size : Z) (device accelerator : V) (population : list (agent V)) :
  initialPopulation algo state_dim action_dim one_hot net_config INIT_HP
                    population_size device accelerator = Ok population →
  ∀ (i : nat) a, population !! i = Some a →
    agent_class a = algo
    ∧ ∀ (j : nat) b, population !! j = Some b → b = with_index (Z.of_nat j) a.
Proof.
  intros Hpop.
  assert (Hshape : population = []
                   ∨ ∃ make : Z → agent V,
                       population = make <$> range population_size
                       ∧ ∀ idx, agent_class (make idx) = algo
                                ∧ ∀ j, with_index j (make idx) = make j).
  { revert Hpop. unfold initialPopulation.
    repeat case_decide; subst; intros Hpop;
      try (left; by injection Hpop as <-).
    all: repeat match type of Hpop with
           | context [getitem ?d ?k] =>
               destruct (getitem d k) as [?v|?e] eqn:?;
                 [| left;
                    eapply (for_in_raises _ _ _ _ _ (λ _ _, eq_refl)), Hpop]
           end.
    all: right; eexists (λ idx, _); split;
      [ erewrite for_in_append in Hpop;
          [injection Hpop as <-; reflexivity | intros idx pop; reflexivity]
      | intros idx; split; [reflexivity | intros j; reflexivity] ]. }
  intros i a Hi. destruct Hshape as [->|(make & -> & Hmake)]; [done |].
  rewrite list_lookup_fmap in Hi.
  destruct (range population_size !! i) as [idx|] eqn:Hidx; simplify_eq/=.
  split; [apply Hmake |].
  intros j b Hj. rewrite list_lookup_fmap in Hj.
  destruct (range population_size !! j) as [jdx|] eqn:Hjdx; simplify_eq/=.
  apply lookup_range in Hjdx as ->. symmetry. apply Hmake.
Qed.

(** X13. With a positive population size, [initialPopulation] raises the
    [KeyError] of the first hyperparameter, in the order the algorithm's
    branch reads them, that [INIT_HP] does not hold. *)
Theorem initialPopulation_missing_key (algo : string)
    (state_dim action_dim one_hot net_config : V) (INIT_HP : gmap string V)
    (population_size : Z) (device accelerator : V)
    (before after : list string) (key : string) :
  0 < population_size →
  hyperparameters algo = (before ++ key :: after)%list →
  (∀ k, k ∈ before → is_Some (INIT_HP !! k)) →
  INIT_HP !! key = None →
  initialPopulation algo state_dim action_dim one_hot net_config INIT_HP
                    population_size device accelerator = Raise (KeyError key).
Proof.
  intros Hsize Hkeys Hbefore Hmissing.
  pose proof (range_positive _ Hsize) as Hrange.
  assert (Hget : ∀ k, k ∈ before → ∃ v, getitem INIT_HP k = Ok v).
  { intros k Hk. destruct (Hbefore k Hk) as [v Hv].
    exists v. unfold getitem. by rewrite Hv. }
  assert (Hmiss : getitem INIT_HP key = Raise (KeyError key)).
  { unfold getitem. by rewrite Hmissing. }
  clear Hbefore Hmissing.
  assert (Halgo : algo ∈ supported).
  { destruct (decide (algo ∈ supported)) as [|Hno]; [done |].
    exfalso. unfold supported in Hno. set_unfold in Hno.
    unfold hyperparameters in Hkeys.
    repeat (case_decide; [exfalso; apply Hno; subst; tauto |]).
    by destruct before. }
  unfold supported in Halgo. set_unfold in Halgo.
  destruct Halgo as [->|[->|[->|[->|[->|[->|[]]]]]]].
  all: remember (hyperparameters _) as hs eqn:Hhs; vm_compute in Hhs; subst hs.
  all: unfold initialPopulation;
    repeat (case_decide; [try discriminate | try done]).
  all: apply for_in_raise; [| exact Hrange]; intros idx pop.
  all: repeat (destruct before as [|? before];
               [ simpl in Hkeys; injection Hkeys as <- <-
               | simpl in Hkeys; injection Hkeys as <- Hkeys ]).
  all: try (by destruct before).
  all: repeat match goal with
         | |- context [getitem ?d ?k] =>
             first
               [ rewrite Hmiss; reflexivity
               | let v := fresh "v" in let Hv := fresh "Hv" in
                 destruct (Hget k) as [v Hv];
                 [solve [vm_compute; repeat first [left | right]]
                 | rewrite Hv; simpl] ]
         end.
Qed.

(** X14. A population size that is not positive gives the empty list for
    every algorithm name, and no hyperparameter is read: none can be
    missed. *)
Theorem initialPopulation_no_agents (algo : string)
    (state_dim action_dim one_hot net_config : V) (INIT_HP : gmap string V)
    (population_size : Z) (device accelerator : V) :
  population_size <= 0 →
  initialPopulation algo state_dim action_dim one_hot net_config INIT_HP
                    population_size device accelerator = Ok [].
Proof.
  intros Hsize. unfold initialPopulation.
  rewrite (range_nonpositive _ Hsize). by repeat case_decide.
Qed.
End population_extras.

(** Three TD3 agents are one constructor call at three indices. *)
Lemma initialPopulation_identical_agents_witness :
  ∃ population,
    initialPopulation "TD3" 4 2 0 0 sample_INIT_HP 3 0 0 = Ok population
    ∧ ∀ (i : nat) a, population !! i = Some a →
        agent_class a = "TD3"
        ∧ ∀ (j : nat) b, population !! j = Some b → b = with_index (Z.of_nat j) a.
Proof.
  destruct (initialPopulation "TD3" 4 2 0 0 sample_INIT_HP 3 0 0)
    as [population|e] eqn:Hpop; [| vm_compute in Hpop; discriminate Hpop].
  exists population. split; [reflexivity |].
  exact (initialPopulation_identical_agents "TD3" 4 2 0 0 sample_INIT_HP 3 0 0
           population Hpop).
Defined.

(** TD3 without a learning rate: the maximal action and the batch size
    are read first. *)
Lemma initialPopulation_missing_key_witness :
  initialPopulation "TD3" 4 2 0 0 (delete "LR" sample_INIT_HP) 3 0 0
  = Raise (KeyError "LR").
Proof.
  apply (initialPopulation_missing_key "TD3" 4 2 0 0 (delete "LR" sample_INIT_HP) 3 0 0
           ["MAX_ACTION"; "BATCH_SIZE"]
           ["LEARN_STEP"; "GAMMA"; "TAU"; "POLICY_FREQ"] "LR").
  - lia.
  - vm_compute. reflexivity.
  - intros k Hk.
    repeat (apply elem_of_cons in Hk as [->|Hk]; [vm_compute; by eexists |]).
    by apply elem_of_nil in Hk.
  - vm_compute. reflexivity.
Defined.

(** No DQN agent, and no hyperparameter either. *)
Lemma initialPopulation_no_agents_witness :
  initialPopulation (V := Z) "DQN" 4 2 0 0 ∅ 0 0 0 = Ok [].
Proof. apply initialPopulation_no_agents. lia. Defined.

(** ** The forward pass *)

Section forward_extras.
Context {G : Type} `{!Generator G} `{!Helpers} {T : Type} `{!Initializer T}.

Implicit Types (self : @EvolvableMultiInput G T).

Lemma to_tensors_nested_raises (entries : list (string * observation)) (key : string)
    (inner : list (string * observation)) (acc : list (string * list Z)) :
  (key, ODict inner) ∈ entries → ∃ e, to_tensors entries acc = Raise e.
Proof.
  revert acc. induction entries as [|[k obs] entries IH]; intros acc Hin.
  - by apply elem_of_nil in Hin.
  - apply elem_of_cons in Hin as [Heq|Hin].
    + injection Heq as <- <-. simpl. by eexists.
    + simpl.
      destruct (match obs with OTensor shape => Ok shape | _ => torch_tensor obs end)
        as [t|e]; simpl; [by apply IH | by eexists].
Qed.

(** X15. An observation with a dictionary among its entries is never
    handled: [forward] raises, whatever the module. The feature extractor
    that [build_feature_extractor] makes for a nested dictionary space is
    not reached. *)
Theorem forward_nested_observation_raises self (entries : list (string * observation))
    (key : string) (inner : list (string * observation)) :
  (key, ODict inner) ∈ entries →
  ∃ e, forward self (ODict entries) = Raise e.
Proof.
  intros Hin.
  destruct (to_tensors_nested_raises entries key inner [] Hin) as [e He].
  exists e. unfold forward. simpl. by rewrite He.
Qed.

Lemma on_last_dim_Ok (i o : Z) (shape shape' : list Z) :
  on_last_dim i o shape = Ok shape' →
  ∃ front, shape = (front ++ [i])%list ∧ shape' = (front ++ [o])%list.
Proof.
  unfold on_last_dim. intros Hok.
  destruct (reverse shape) as [|last front] eqn:Hrev; [discriminate Hok |].
  revert Hok. case_bool_decide; [| discriminate]. subst last.
  intros Hok. injection Hok as <-.
  exists (reverse front). split.
  - rewrite <- (reverse_involutive shape), Hrev. by rewrite reverse_cons.
  - by rewrite reverse_cons.
Qed.

(** X16. Whatever [forward] returns has [num_outputs] values in its last
    dimension, provided the final dense layer is the one of the
    architecture, as it is after construction and after every rebuild. *)
Theorem forward_output_features self (x : observation) (shape : list Z) :
  dense_consistent self →
  forward self x = Ok shape →
  ∃ front, shape = (front ++ [num_outputs self])%list.
Proof.
  intros Hdense Hfwd. unfold forward in Hfwd.
  repeat match type of Hfwd with
         | _ ≫= _ = Ok _ =>
             let H := fresh "Hstep" in
             apply bind_Ok in Hfwd as (? & H & Hfwd)
         | (let '(_, _) := ?p in _) = Ok _ => destruct p
         end.
  injection Hfwd as <-.
  match goal with
  | H : linear _ _ = Ok _ |- _ =>
      unfold linear in H; apply on_last_dim_Ok in H as (front & _ & Hlatent)
  end.
  rewrite Hdense in Hlatent. simpl in Hlatent.
  match goal with
  | H : (if output_layernorm self then _ else _) = Ok _ |- _ => rename H into Hnorm
  end.
  destruct (output_layernorm self).
  - destruct (final_layernorm self) as [ln|]; [| discriminate Hnorm].
    unfold layer_norm in Hnorm.
    apply on_last_dim_Ok in Hnorm as (front' & Hin & ->).
    exists front'. subst. by apply app_inj_2 in Hin as [_ [= <-]].
  - injection Hnorm as <-. by exists front.
Qed.
End forward_extras.

(** The dictionary under ["inner"]. *)
Lemma forward_nested_observation_raises_witness :
  ∃ e, forward (sample_module 64 (Some 3))
         (ODict [("vector", OTensor [1; 4]); ("inner", ODict [("a", OTensor [1; 4])])])
       = Raise e.
Proof.
  apply (forward_nested_observation_raises _ _ "inner" [("a", OTensor [1; 4])]).
  right. left.
Defined.

(** The sample module on a batch of five. *)
Lemma forward_output_features_witness :
  ∃ front,
    [5; 10] = (front ++ [num_outputs (sample_module 64 (Some 7))])%list.
Proof.
  apply (forward_output_features (sample_module 64 (Some 7))
           (ODict [("image", OTensor [5; 3; 32; 32]); ("vector", OArray [5; 4])])).
  - vm_compute. reflexivity.
  - vm_compute. reflexivity.
Defined.

(** ** The forward pass on vectors *)

Section vector_forward.
Context {G : Type} `{!Generator G} `{!Helpers} {T : Type} `{!Initializer T}.

Implicit Types (self : @EvolvableMultiInput G T).

Lemma Ok_bind {A B} (a : A) (k : A → result B) : Ok a ≫= k = k a.
Proof. reflexivity. Qed.

Lemma setitem_fresh {V} (key : string) (v : V) (d : list (string * V)) :
  key ∉ keys d → setitem key v d = (d ++ [(key, v)])%list.
Proof.
  unfold keys. induction d as [|[k w] d IH]; simpl; [done |].
  rewrite not_elem_of_cons. intros [Hne Hd].
  rewrite decide_False by done. by rewrite IH.
Qed.

Lemma to_tensors_batch (b : Z) (dims : list (string * Z)) (acc : list (string * list Z)) :
  NoDup (keys acc ++ dims.*1) →
  to_tensors (vector_batch b dims) acc
  = Ok (acc ++ ((λ kn, (kn.1, [b; kn.2])) <$> dims))%list.
Proof.
  revert acc. induction dims as [|[k n] dims IH]; intros acc Hnd; simpl.
  - by rewrite app_nil_r.
  - apply NoDup_app in Hnd as (Hacc & Hdisj & Hdims).
    apply NoDup_cons in Hdims as [Hk Hdims].
    rewrite setitem_fresh.
    2:{ intros Hin. apply (Hdisj k Hin). left. }
    rewrite IH.
    + by rewrite <- app_assoc.
    + unfold keys. rewrite fmap_app. simpl. rewrite <- app_assoc. simpl.
      apply NoDup_app. split; [done |]. split.
      * intros x Hx Hx'. apply elem_of_cons in Hx' as [->|Hx'].
        -- apply (Hdisj k Hx). left.
        -- apply (Hdisj x Hx). by right.
      * by apply NoDup_cons.
Qed.

Lemma lookup_key_batch (b : Z) (dims : list (string * Z)) (k : string) (n : Z) :
  NoDup dims.*1 → (k, n) ∈ dims →
  lookup_key k ((λ kn, (kn.1, [b; kn.2])) <$> dims) = Some [b; n].
Proof.
  induction dims as [|[k' n'] dims IH]; intros Hnd Hin; simpl.
  - by apply elem_of_nil in Hin.
  - simpl in Hnd. apply NoDup_cons in Hnd as [Hk Hnd].
    apply elem_of_cons in Hin as [Heq|Hin].
    + injection Heq as <- <-. by rewrite decide_True.
    + rewrite decide_False; [by apply IH |].
      intros ->. apply Hk. apply list_elem_of_fmap. by exists (k, n).
Qed.

Lemma vectors_batch (b : Z) (x : list (string * list Z)) (vs : list (string * Z))
    (acc : list (list Z)) :
  (∀ k n, (k, n) ∈ vs → lookup_key k x = Some [b; n]) →
  vectors x (vector_space_of vs) [] acc
  = Ok ((acc ++ ((λ kn, [b; kn.2]) <$> vs))%list, []).
Proof.
  revert acc. induction vs as [|[k n] vs IH]; intros acc Hx; simpl.
  - by rewrite app_nil_r.
  - unfold getkey. rewrite (Hx k n) by left. simpl.
    rewrite IH; [by rewrite <- app_assoc |].
    intros k' n' Hin. apply Hx. by right.
Qed.

Lemma cat1_batch (b : Z) (dims : list (string * Z)) :
  dims ≠ [] →
  cat1 ((λ kn, [b; kn.2]) <$> dims) = Ok [b; foldr Z.add 0 dims.*2].
Proof.
  intros Hne. unfold cat1.
  assert (Hf : ∀ l : list (string * Z),
            filter (λ sh, sh ≠ [0]) ((λ kn, [b; kn.2]) <$> l)
            = (λ kn, [b; kn.2]) <$> l).
  { induction l as [|[k n] l IH]; [done |].
    rewrite fmap_cons, filter_cons_True by done. by rewrite IH. }
  rewrite Hf. destruct dims as [|[k n] dims]; [done |].
  rewrite fmap_cons. cbn [snd].
  cbv beta iota.
  match goal with
  | |- context [forallb ?f _] =>
      assert (Hall : ∀ l : list (string * Z),
                forallb f ((λ kn, [b; kn.2]) <$> l) = true)
  end.
  { induction l as [|[k' n'] l IH]; [done |].
    rewrite fmap_cons. cbn [forallb snd]. rewrite IH.
    by rewrite bool_decide_eq_true_2. }
  cbv beta iota. rewrite Hall. do 3 f_equal.
  rewrite fmap_cons. cbn [foldr snd].
  clear. induction dims as [|[k' n'] dims IH]; [simpl; lia |].
  rewrite !fmap_cons. cbn [foldr]. rewrite IH. simpl. lia.
Qed.

Lemma no_extractors (built : bool) (pre : @EvolvableMultiInput G T)
    (dims : list (string * Z)) (acc : list (string * encoder)) :
  foldl (λ feature_net '(key, sp),
           match feature_extractor built pre key sp with
           | Some e => setitem key e feature_net
           | None => feature_net
           end) acc (vector_space_of dims) = acc.
Proof.
  revert acc. induction dims as [|[k n] dims IH]; intros acc; [done |].
  simpl. apply IH.
Qed.

(** X17. A module constructed for an observation space of named vectors,
    without the vector MLP, maps a batch of [b] observations to [b] rows
    of [num_outputs] values: no extractor is built, the vectors are
    concatenated in the order of the space and the final dense layer
    takes the sum of their lengths. The helpers are assumed to take a box
    of one dimension for a vector space of that many values. *)
Theorem forward_vector_batch (a : init_args) (unseeded : G) self
    (dims : list (string * Z)) (b : Z) :
  (∀ n, is_vector_space (Box [n]) = true) →
  (∀ n, flatdim (Box [n]) = n) →
  arg_observation_space a = Dict (vector_space_of dims) →
  arg_vector_space_mlp a = false →
  NoDup dims.*1 →
  dims ≠ [] →
  __init__ a unseeded = Ok self →
  forward self (ODict (vector_batch b dims)) = Ok [b; arg_num_outputs a].
Proof.
  intros Hvector Hflat Hspace Hmlp Hnd Hne Hinit.
  apply init_attributes in Hinit
    as (_ & Hout & _ & _ & _ & Hvsm & Hobs & Hvs & Htot & Hln & Hfl & Hext & Hfd
        & pre & Hfn & Hpobs & Hpvsm & _).
  rewrite Hspace in Hobs. rewrite Hmlp in Hvsm.
  assert (Hvs' : vector_spaces self = vector_space_of dims).
  { rewrite Hvs, Hobs. clear -Hvector. unfold vector_space_of.
    induction dims as [|[k n] dims IH]; [done |].
    rewrite fmap_cons, filter_cons_True; [by rewrite IH |].
    simpl. unfold vector_space_check. by rewrite Hvector. }
  assert (Htot' : total_vector_dims self = foldr Z.add 0 dims.*2).
  { rewrite Htot, Hvs'. unfold get_total_flatdim, vector_space_of. clear -Hflat.
    induction dims as [|[k n] dims IH]; [done |].
    rewrite !fmap_cons. cbn [foldr snd]. by rewrite Hflat, IH. }
  assert (Hnet : arch (feature_net self) = []).
  { rewrite Hfn. unfold build_feature_extractor.
    rewrite Hpobs, Hobs, Hpvsm, Hvsm. simpl. apply no_extractors. }
  assert (Hcalc : calc_extracted_features_dim self = 0).
  { unfold calc_extracted_features_dim. by rewrite Hnet. }
  assert (Hdense : arch (final_dense self)
                   = {| in_features := foldr Z.add 0 dims.*2;
                        out_features := arg_num_outputs a |}).
  { rewrite Hfd. unfold new_linear, features_dim. simpl.
    rewrite Hcalc, Htot', Hvsm, Hout. simpl. f_equal. lia. }
  unfold forward. rewrite Ok_bind.
  rewrite to_tensors_batch by exact Hnd. rewrite Ok_bind. simpl app.
  rewrite Hext, Hcalc. rewrite bool_decide_eq_false_2 by lia. rewrite Ok_bind.
  rewrite Hvs'.
  rewrite (vectors_batch b) by (intros k n Hin; by apply lookup_key_batch).
  rewrite Ok_bind. cbv beta iota. simpl app.
  rewrite (bool_decide_eq_true_2 (_ <$> dims ≠ [])) by (by intros ?%fmap_nil_inv).
  rewrite cat1_batch by done. rewrite Ok_bind.
  rewrite Hvsm. rewrite Ok_bind.
  rewrite (bool_decide_eq_false_2 ([] ≠ [])) by (by intros []). rewrite Ok_bind.
  assert (Hcat : cat1 [[0]; [b; foldr Z.add 0 dims.*2]]
                 = Ok [b; foldr Z.add 0 dims.*2]).
  { unfold cat1. rewrite filter_cons_False by (by intros []).
    rewrite filter_cons_True by done. reflexivity. }
  rewrite Hcat, Ok_bind.
  assert (Hlin : linear (arch (final_dense self)) [b; foldr Z.add 0 dims.*2]
                 = Ok [b; arg_num_outputs a]).
  { rewrite Hdense. unfold linear, on_last_dim. simpl.
    by rewrite bool_decide_eq_true_2. }
  rewrite Hlin, Ok_bind.
  rewrite Hfl. destruct (output_layernorm self); [| done].
  unfold layer_norm, on_last_dim. simpl. rewrite Hout.
  by rewrite bool_decide_eq_true_2.
Qed.
End vector_forward.

(** A position of three values and a velocity of two, in batches of five. *)
Lemma forward_vector_batch_witness :
  ∃ self : EvolvableMultiInput,
    __init__ (default_args (Dict (vector_space_of [("position", 3); ("velocity", 2)])) 6) 0
    = Ok self
    ∧ forward self (ODict (vector_batch 5 [("position", 3); ("velocity", 2)])) = Ok [5; 6].
Proof.
  destruct (__init__ (default_args
              (Dict (vector_space_of [("position", 3); ("velocity", 2)])) 6) 0)
    as [self|e] eqn:Hinit; [| vm_compute in Hinit; discriminate Hinit].
  exists self. split; [reflexivity |].
  apply (forward_vector_batch
           (default_args (Dict (vector_space_of [("position", 3); ("velocity", 2)])) 6)
           0 self [("position", 3); ("velocity", 2)] 5).
  - intros n. reflexivity.
  - intros n. simpl. lia.
  - reflexivity.
  - reflexivity.
  - simpl. apply NoDup_cons. split; [| apply NoDup_cons; split; [| apply NoDup_nil_2]].
    + rewrite list_elem_of_singleton. discriminate.
    + apply not_elem_of_nil.
  - discriminate.
  - exact Hinit.
Defined.

(** ** The initialisation dictionaries *)

Section init_dicts_extras.
Context {G : Type} `{!Generator G} `{!Helpers} {T : Type} `{!Initializer T}.

Implicit Types (self : @EvolvableMultiInput G T).

(** X18. Once the feature extractors exist, every entry of [init_dicts]
    belongs to one of them, names the latent dimension the module has now
    as its [num_outputs], whatever the extractor was built with, and holds
    none of the arguments that describe the extractor's input. *)
Theorem init_dicts_reformatted self (key : string) (v : pyval) :
  init_dicts true self !! key = Some v →
  key ∈ keys (arch (feature_net self))
  ∧ ∃ init_dict,
      v = PDict init_dict
      ∧ init_dict !! "num_outputs" = Some (PInt (latent_dim self))
      ∧ init_dict !! "observation_space" = None
      ∧ init_dict !! "input_size" = None
      ∧ init_dict !! "input_shape" = None
      ∧ init_dict !! "num_inputs" = None.
Proof.
  unfold init_dicts.
  set (good := λ (l : list (string * encoder)) (k : string) (w : pyval),
         k ∈ keys l
         ∧ ∃ init_dict,
             w = PDict init_dict
             ∧ init_dict !! "num_outputs" = Some (PInt (latent_dim self))
             ∧ init_dict !! "observation_space" = None
             ∧ init_dict !! "input_size" = None
             ∧ init_dict !! "input_shape" = None
             ∧ init_dict !! "num_inputs" = None).
  assert (Hfold : ∀ (l done_ : list (string * encoder)) (acc : config),
            (∀ k w, acc !! k = Some w → good done_ k w) →
            ∀ k w,
              foldl (λ reformatted_dicts '(key, net),
                       match encoder_init_dict net with
                       | Some init_dict =>
                           let init_dict := delete "observation_space" init_dict in
                           let init_dict := delete "input_size" init_dict in
                           let init_dict := delete "input_shape" init_dict in
                           let init_dict := delete "num_inputs" init_dict in
                           let init_dict :=
                             <["num_outputs" := PInt (latent_dim self)]> init_dict in
                           <[key := PDict init_dict]> reformatted_dicts
                       | None => reformatted_dicts
                       end) acc l !! k = Some w →
              good (done_ ++ l)%list k w).
  { induction l as [|[k0 net] l IH]; intros done_ acc Hacc k w Hk; simpl in Hk.
    - rewrite app_nil_r. by apply Hacc.
    - replace (done_ ++ (k0, net) :: l)%list with ((done_ ++ [(k0, net)]) ++ l)%list
        by (by rewrite <- app_assoc).
      eapply IH; [| exact Hk].
      intros k1 w1 H1.
      assert (Hweak : good done_ k1 w1 → good (done_ ++ [(k0, net)])%list k1 w1).
      { intros [Hin Hd]. split; [| done].
        unfold keys. rewrite fmap_app. apply elem_of_app. by left. }
      destruct (encoder_init_dict net) as [d|]; [| by apply Hweak, Hacc].
      destruct (decide (k1 = k0)) as [->|Hne].
      + rewrite lookup_insert_eq in H1. injection H1 as <-. split.
        * unfold keys. rewrite fmap_app. apply elem_of_app. right. left.
        * eexists. split; [reflexivity |].
          rewrite lookup_insert_eq. split; [done |].
          rewrite !lookup_insert_ne by done.
          split_and!.
          -- rewrite !lookup_delete_ne by done. apply lookup_delete_eq.
          -- rewrite !lookup_delete_ne by done. apply lookup_delete_eq.
          -- rewrite !lookup_delete_ne by done. apply lookup_delete_eq.
          -- apply lookup_delete_eq.
      + rewrite lookup_insert_ne in H1 by done. by apply Hweak, Hacc. }
  intros Hv. apply (Hfold (arch (feature_net self)) [] ∅); [| exact Hv].
  intros k w Hw. by rewrite lookup_empty in Hw.
Qed.
End init_dicts_extras.

(** The entry of the image extractor after the latent dimension has
    changed and before the network is rebuilt. *)
Lemma init_dicts_reformatted_witness :
  let self := set_latent_dim 80 (sample_module 64 (Some 3)) in
  ∃ v init_dict,
    init_dicts true self !! "image" = Some v
    ∧ v = PDict init_dict
    ∧ init_dict !! "num_outputs" = Some (PInt 80)
    ∧ init_dict !! "input_shape" = None.
Proof.
  intros self.
  destruct (init_dicts true self !! "image") as [v|] eqn:Hv;
    [| vm_compute in Hv; discriminate Hv].
  destruct (init_dicts_reformatted self "image" v Hv)
    as (_ & init_dict & Hd & Hn & _ & _ & Hi & _).
  exists v, init_dict. split; [reflexivity |]. split; [exact Hd |].
  split; [exact Hn | exact Hi].
Defined.
